(** * DeeperSpeed multi-node launcher: command builders

    A shallow embedding of [deepspeed/launcher/multinode_runner.py] and the
    properties of the launch commands it builds.

    Conventions of the embedding.
    - A Python [str] is a Rocq [string]; one [ascii] stands for one character
      whose code point is below 256.
    - A Python [int] is a [Z].
    - A Python [dict] is an association list in insertion order, because the
      order in which the builders iterate the export table and the resource
      pool shows in the command line.
    - A raised exception is the [Raise] case of [result]; state changed before
      the exception stays changed.
    - [logger.info] and [warnings.warn] only report; they are left out.
    - An [assert] statement is modelled as executed (the interpreter is not
      run with [-O]).
    - Opening and writing the MVAPICH hostfile is taken to succeed. *)

From Stdlib Require Import List String Ascii ZArith Bool Lia DecimalString.
Import ListNotations.
Open Scope string_scope.
Open Scope Z_scope.

(** ** Python strings *)

Module Py.

(** [str(n)] and [f'{n}'] for an [int]. *)
Definition str_int (n : Z) : string := NilZero.string_of_int (Z.to_int n).

(** [s.startswith(c)] and [s.endswith(c)] for a one-character [c]. *)
Definition startswith (c : ascii) (s : string) : bool :=
  match s with
  | EmptyString => false
  | String a _ => Ascii.eqb a c
  end.

Fixpoint endswith (c : ascii) (s : string) : bool :=
  match s with
  | EmptyString => false
  | String a EmptyString => Ascii.eqb a c
  | String _ r => endswith c r
  end.

(** [c.isspace()] on the code points below 256: TAB, LF, VT, FF, CR, the
    four separators FS, GS, RS, US, the space, NEL and the no-break space. *)
Definition isspace (c : ascii) : bool :=
  let n := N_of_ascii c in
  ((9 <=? n) && (n <=? 13) || (28 <=? n) && (n <=? 32)
   || (n =? 133) || (n =? 160))%N.

Fixpoint lstrip (s : string) : string :=
  match s with
  | EmptyString => EmptyString
  | String c r => if isspace c then lstrip r else s
  end.

Fixpoint rstrip (s : string) : string :=
  match s with
  | EmptyString => EmptyString
  | String c r =>
      match rstrip r with
      | EmptyString => if isspace c then EmptyString else String c EmptyString
      | r' => String c r'
      end
  end.

(** [s.strip()]. *)
Definition strip (s : string) : string := rstrip (lstrip s).

(** [sep.join(l)]. *)
Definition join (sep : string) (l : list string) : string := String.concat sep l.

(** [sub in s] for two strings. *)
Definition contains (sub s : string) : bool :=
  match String.index 0 sub s with Some _ => true | None => false end.

(** [sum(l)] over integers. *)
Definition sum (l : list Z) : Z := fold_left Z.add l 0.

(** [l.insert(i, x)] for [0 <= i]: past the end it appends. *)
Definition list_insert {A} (i : nat) (x : A) (l : list A) : list A :=
  (firstn i l ++ x :: skipn i l)%list.

(** The line feed and the double quote, which a literal cannot hold. *)
Definition LF : string := String "010"%char EmptyString.
Definition DQ : ascii := "034"%char.

(** Writes a text with a back quote wherever the Python text has a double
    quote. *)
Fixpoint dq (s : string) : string :=
  match s with
  | EmptyString => EmptyString
  | String c r => String (if Ascii.eqb c "`"%char then DQ else c) (dq r)
  end.

End Py.

(** ** Python dictionaries, in insertion order *)

Definition dict (V : Type) : Type := list (string * V).

Module Dict.
Section Ops.
Context {V : Type}.

Definition keys (d : dict V) : list string := map fst d.
Definition values (d : dict V) : list V := map snd d.

(** [d.get(k)]: the value of the first entry under [k]. *)
Fixpoint get (k : string) (d : dict V) : option V :=
  match d with
  | [] => None
  | (k', v) :: r => if String.eqb k k' then Some v else get k r
  end.

(** [k in d]. *)
Definition mem (k : string) (d : dict V) : bool :=
  match get k d with Some _ => true | None => false end.

(** [d[k] = v]: an existing key keeps its place and takes the new value, a
    new key goes to the end. *)
Fixpoint set (k : string) (v : V) (d : dict V) : dict V :=
  match d with
  | [] => [(k, v)]
  | (k', v') :: r =>
      if String.eqb k k' then (k', v) :: r else (k', v') :: set k v r
  end.
End Ops.
End Dict.

(** ** Exceptions and results *)

(** The exceptions the builders raise or let through.  [ValueError msg cause]
    is [raise ValueError(msg) from cause]; [OtherError] stands for any
    exception class not named here (a [json] call may raise one). *)
Inductive exn : Type :=
| AssertionError (msg : string)
| ValueError (msg : string) (cause : exn)
| JSONDecodeError (msg : string)
| TypeError
| AttributeError
| IndexError
| KeyError (key : string)
| OtherError (name : string).

Inductive result (A : Type) : Type :=
| Ok (a : A)
| Raise (e : exn).
Arguments Ok {A} a.
Arguments Raise {A} e.

(** ** The data the builders work on *)

(** The parsed command line ([args]); the builders only read it. *)
Record LaunchConfig : Type := {
  user_script : string;
  user_args : list string;
  master_addr : string;
  master_port : Z;
  hostfile : string;
  include : string;
  exclude : string;
  num_nodes : Z;
  num_gpus : Z;
  detect_nvlink_pairs : bool;
  comment : string
}.

(** The state of the interpreter process that [get_cmd] reads but does not
    receive as an argument: [os.environ], [os.path.abspath('.')] and
    [sys.executable]. *)
Record Process : Type := {
  os_environ : dict string;
  cwd : string;
  sys_executable : string
}.

(** What [get_cmd] can change: the mapping object bound to its [environment]
    parameter (passed by reference, so the caller sees the writes) and the
    files, as a map from path to content. *)
Record Store : Type := {
  environment : dict string;
  files : dict string
}.

(** The fields of a [MultiNodeRunner] instance.  [resource_pool] is set by the
    OpenMPI, Slurm and MVAPICH constructors only; the other two never read it
    and hold the empty pool here. *)
Record Runner : Type := {
  args : LaunchConfig;
  user_arguments : list string;
  runner_user_script : string;
  world_info_base64 : string;
  exports : dict string;
  resource_pool : dict Z
}.

(** ** Computations that may raise, with or without the store *)

Class Monad (m : Type -> Type) : Type := {
  ret : forall {A}, A -> m A;
  bind : forall {A B}, m A -> (A -> m B) -> m B
}.

Notation "x <- m ;; k" := (bind m (fun x => k))
  (at level 61, m at next level, right associativity).
Notation "m ;; k" := (bind m (fun _ => k))
  (at level 61, right associativity).

#[export] Instance result_monad : Monad result := {
  ret := fun A a => Ok a;
  bind := fun A B r k =>
    match r with
    | Ok a => k a
    | Raise e => Raise e
    end
}.

(** A computation on the store: an exception leaves the store as it was when
    the exception was raised. *)
Definition M (A : Type) : Type := Store -> result A * Store.

#[export] Instance M_monad : Monad M := {
  ret := fun A a s => (Ok a, s);
  bind := fun A B m k s =>
    match m s with
    | (Ok a, s') => k a s'
    | (Raise e, s') => (Raise e, s')
    end
}.

(** Lifts a computation that only may raise. *)
Definition lift {A} (r : result A) : M A := fun s => (r, s).

(** [assert cond, msg]. *)
Definition assert_ (cond : bool) (msg : string) : M unit :=
  lift (if cond then Ok tt else Raise (AssertionError msg)).

(** [environment[k] = v]. *)
Definition environment_set (k v : string) : M unit :=
  fun s => (Ok tt, {| environment := Dict.set k v (environment s);
                      files := files s |}).

(** [with open(path, 'w') as fd: fd.write(text)]: the file is created or
    truncated and holds [text] afterwards. *)
Definition write_file (path text : string) : M unit :=
  fun s => (Ok tt, {| environment := environment s;
                      files := Dict.set path text (files s) |}).

(** [for x in l: acc = f(acc, x)], stopping at the first exception. *)
Fixpoint foldM {A B} (f : A -> B -> result A) (acc : A) (l : list B)
  : result A :=
  match l with
  | [] => Ok acc
  | x :: r => acc' <- f acc x ;; foldM f acc' r
  end.

(** ** Values of the [json] module *)

(** What [json.loads] returns.  A [float] is carried as the text [json.dumps]
    writes for it. *)
#[warnings="-register-all"]
Inductive pyval : Type :=
| PNone
| PBool (b : bool)
| PInt (n : Z)
| PFloat (repr : string)
| PStr (s : string)
| PList (l : list pyval)
| PDict (d : list (string * pyval)).

(** ** MultiNodeRunner, the base class *)

Module MultiNodeRunner.

(** [__init__]: [normalized] is what the subclass's [parse_user_args]
    returned; the export table starts empty. *)
Definition init (a : LaunchConfig) (normalized : list string)
    (world_info : string) : Runner :=
  {| args := a;
     user_arguments := normalized;
     runner_user_script := user_script a;
     world_info_base64 := world_info;
     exports := [];
     resource_pool := [] |}.

(** [self.exports[key.strip()] = var.strip()]. *)
Definition add_export (key var : string) (self : Runner) : Runner :=
  {| args := args self;
     user_arguments := user_arguments self;
     runner_user_script := runner_user_script self;
     world_info_base64 := world_info_base64 self;
     exports := Dict.set (Py.strip key) (Py.strip var) (exports self);
     resource_pool := resource_pool self |}.

(** [self.resource_pool = resource_pool], in the constructors that take one. *)
Definition with_resource_pool (pool : dict Z) (self : Runner) : Runner :=
  {| args := args self;
     user_arguments := user_arguments self;
     runner_user_script := runner_user_script self;
     world_info_base64 := world_info_base64 self;
     exports := exports self;
     resource_pool := pool |}.

(** The default [parse_user_args]: the arguments as they are. *)
Definition parse_user_args (a : LaunchConfig) : list string := user_args a.

End MultiNodeRunner.

(** ** PDSHRunner *)

Module PDSHRunner.

Definition quote (x : string) : string :=
  if Py.startswith "-" x then x else "'" ++ x ++ "'".

Definition parse_user_args (a : LaunchConfig) : list string :=
  map quote (user_args a).

Definition init (a : LaunchConfig) (world_info : string) : Runner :=
  MultiNodeRunner.init a (parse_user_args a) world_info.

(** The loop [exports += "export {}={}; ".format(key, val)]. *)
Definition render_exports (e : dict string) : string :=
  fold_left (fun acc kv => acc ++ "export " ++ fst kv ++ "=" ++ snd kv ++ "; ")
            e "".

Section Constants.
(** [PDSH_MAX_FAN_OUT] of [deepspeed/launcher/constants.py]. *)
Variable PDSH_MAX_FAN_OUT : Z.

Definition get_cmd (p : Process) (self : Runner)
    (active_resources : dict (list Z)) : M (list string) :=
  environment_set "PDSH_RCMD_TYPE" "ssh" ;;
  let active_workers := Py.join "," (Dict.keys active_resources) in
  let pdsh_cmd_args :=
    ["pdsh"; "-f"; Py.str_int PDSH_MAX_FAN_OUT; "-w"; active_workers] in
  let exports := render_exports (exports self) in
  let deepspeed_launch :=
    [exports;
     "cd " ++ cwd p ++ ";";
     sys_executable p;
     "-u";
     "-m";
     "deepspeed.launcher.launch";
     "--world_info=" ++ world_info_base64 self;
     "--node_rank=%n";
     "--master_addr=" ++ master_addr (args self);
     "--master_port=" ++ Py.str_int (master_port (args self))] in
  let deepspeed_launch :=
    if detect_nvlink_pairs (args self)
    then (deepspeed_launch ++ ["--detect_nvlink_pairs"])%list
    else deepspeed_launch in
  ret (pdsh_cmd_args ++ deepspeed_launch ++ [runner_user_script self]
       ++ user_arguments self)%list.
End Constants.

End PDSHRunner.

(** ** OpenMPIRunner *)

Module OpenMPIRunner.

Definition init (a : LaunchConfig) (world_info : string) (pool : dict Z)
  : Runner :=
  MultiNodeRunner.add_export "UCX_TLS" "tcp"
    (MultiNodeRunner.with_resource_pool pool
       (MultiNodeRunner.init a (MultiNodeRunner.parse_user_args a) world_info)).

(** The loop [export_cmd += ['-x', f'{k}={v}']]. *)
Definition export_cmd (e : dict string) : list string :=
  fold_left (fun acc kv => (acc ++ ["-x"; (fst kv ++ "=" ++ snd kv)%string])%list) e [].

(** The truth value of [os.environ.get('RUN_MPI_AS_ROOT', False)]: a set,
    non-empty variable. *)
Definition allow_run_as_root (p : Process) : bool :=
  match Dict.get "RUN_MPI_AS_ROOT" (os_environ p) with
  | Some v => negb (String.eqb v "")
  | None => false
  end.

Definition get_cmd (p : Process) (self : Runner)
    (active_resources : dict (list Z)) : M (list string) :=
  assert_ (String.eqb (include (args self)) ""
           && String.eqb (exclude (args self)) "")
    "openmpi backend does not support worker include/exclusion" ;;
  assert_ ((num_nodes (args self) =? -1) && (num_gpus (args self) =? -1))
    "openmpi backend does not support limiting num nodes/gpus" ;;
  assert_ (negb (detect_nvlink_pairs (args self)))
    "openmpi backend does not support remapping visible devices" ;;
  let total_process_count := Py.sum (Dict.values (resource_pool self)) in
  let mpirun_cmd :=
    ["mpirun";
     "-n";
     Py.str_int total_process_count;
     "-hostfile";
     hostfile (args self);
     "--mca";
     "btl";
     "^openib";
     "--mca";
     "btl_tcp_if_include";
     "eth0"] in
  let mpirun_cmd :=
    if allow_run_as_root p
    then Py.list_insert 1 "--allow-run-as-root" mpirun_cmd
    else mpirun_cmd in
  let export_cmd := export_cmd (exports self) in
  let python_exec := [sys_executable p; "-u"] in
  ret (mpirun_cmd ++ export_cmd ++ python_exec ++ [runner_user_script self]
       ++ user_arguments self)%list.

End OpenMPIRunner.

(** ** The JSON rewrite of the user arguments

    [SlurmRunner.parse_user_args] and [MosaicMLRunner.parse_user_args] are
    the same text up to the message of the [ValueError]; [message] is that
    message.  [json.loads] and [json.dumps] belong to the Python library and
    are parameters: [json_dumps v item_sep key_sep] is
    [json.dumps(v, separators=(item_sep, key_sep))]. *)

Module JsonArgs.
Section Json.
Variable json_loads : string -> result pyval.
Variable json_dumps : pyval -> string -> string -> string.
Variable message : string.

(** [key in v]. *)
Definition contains_key (key : string) (v : pyval) : result bool :=
  match v with
  | PDict d => Ok (Dict.mem key d)
  | PList l =>
      Ok (existsb (fun x => match x with
                            | PStr s => String.eqb s key
                            | _ => false
                            end) l)
  | PStr s => Ok (Py.contains key s)
  | _ => Raise TypeError
  end.

(** [v.get(key, {}).items()]. *)
Definition get_items (key : string) (v : pyval)
  : result (list (string * pyval)) :=
  match v with
  | PDict d =>
      match Dict.get key d with
      | Some (PDict items) => Ok items
      | Some _ => Raise AttributeError
      | None => Ok []
      end
  | _ => Raise AttributeError
  end.

(** [json.loads(v)] for a value [v]: only a [str] is accepted. *)
Definition loads_value (v : pyval) : result pyval :=
  match v with
  | PStr s => json_loads s
  | _ => Raise TypeError
  end.

(** [v[key] = x]. *)
Definition set_item (key : string) (x v : pyval) : result pyval :=
  match v with
  | PDict d => Ok (PDict (Dict.set key x d))
  | _ => Raise TypeError
  end.

(** The loop over [arg_dict.get('config_files', {}).items()]. *)
Definition parse_config_files (items : list (string * pyval))
  : result (list (string * pyval)) :=
  foldM (fun config_files kv =>
           w <- loads_value (snd kv) ;;
           Ok (Dict.set (fst kv) w config_files))
        [] items.

(** The body of the [try]. *)
Definition try_block (arg : string) : result pyval :=
  arg_dict <- json_loads arg ;;
  has <- contains_key "config_files" arg_dict ;;
  if has : bool then
    items <- get_items "config_files" arg_dict ;;
    config_files <- parse_config_files items ;;
    set_item "config_files" (PDict config_files) arg_dict
  else Ok arg_dict.

(** [arg.startswith('{') and arg.endswith('}')]. *)
Definition json_shaped (arg : string) : bool :=
  Py.startswith "{" arg && Py.endswith "}" arg.

(** One turn of the loop over [self.args.user_args]: the value appended to
    [user_args]. *)
Definition rewrite_arg (arg : string) : result string :=
  if json_shaped arg then
    match try_block arg with
    | Ok arg_dict => Ok (json_dumps arg_dict "," ":")
    | Raise (JSONDecodeError m) =>
        Raise (ValueError message (JSONDecodeError m))
    | Raise e => Raise e
    end
  else Ok arg.

Definition parse_user_args (a : LaunchConfig) : result (list string) :=
  foldM (fun user_args arg =>
           arg' <- rewrite_arg arg ;;
           Ok (user_args ++ [arg'])%list)
        [] (user_args a).
End Json.
End JsonArgs.

(** ** SlurmRunner *)

Module SlurmRunner.

Definition message : string :=
  "SLURM is picky and needs you to use plain json for your configs. Check for comments and lowercase trues".

Section Json.
Variable json_loads : string -> result pyval.
Variable json_dumps : pyval -> string -> string -> string.

Definition parse_user_args (a : LaunchConfig) : result (list string) :=
  JsonArgs.parse_user_args json_loads json_dumps message a.

Definition init (a : LaunchConfig) (world_info : string) (pool : dict Z)
  : result Runner :=
  normalized <- parse_user_args a ;;
  Ok (MultiNodeRunner.with_resource_pool pool
        (MultiNodeRunner.init a normalized world_info)).
End Json.

(** The loop [exports += f",{key}={val}"] from ['--export=ALL']. *)
Definition render_exports (e : dict string) : string :=
  fold_left (fun acc kv => acc ++ "," ++ fst kv ++ "=" ++ snd kv)
            e "--export=ALL".

Definition get_cmd (p : Process) (self : Runner)
    (active_resources : dict (list Z)) : M (list string) :=
  assert_ (negb (detect_nvlink_pairs (args self)))
    "slurm backend does not support remapping visible devices" ;;
  let total_process_count := Py.sum (Dict.values (resource_pool self)) in
  let srun_cmd := ["srun"; "-n"; Py.str_int total_process_count] in
  let srun_cmd :=
    if negb (String.eqb (comment (args self)) "")
    then (srun_cmd ++ ["--comment"; comment (args self)])%list
    else srun_cmd in
  let srun_cmd :=
    if negb (String.eqb (include (args self)) "")
    then (srun_cmd ++ ["--include"; include (args self)])%list
    else srun_cmd in
  let srun_cmd :=
    if negb (String.eqb (exclude (args self)) "")
    then (srun_cmd ++ ["--exclude"; exclude (args self)])%list
    else srun_cmd in
  let srun_cmd :=
    if 0 <? num_nodes (args self)
    then (srun_cmd ++ ["--nodes"; Py.str_int (num_nodes (args self))])%list
    else srun_cmd in
  let srun_cmd :=
    if 0 <? num_gpus (args self)
    then (srun_cmd ++ ["--gpus"; Py.str_int (num_gpus (args self))])%list
    else srun_cmd in
  let exports := render_exports (exports self) in
  let python_exec := [sys_executable p; "-u"] in
  ret (srun_cmd ++ [exports] ++ python_exec ++ [runner_user_script self]
       ++ user_arguments self)%list.

End SlurmRunner.

(** ** MVAPICHRunner *)

Module MVAPICHRunner.

Definition init (a : LaunchConfig) (world_info : string) (pool : dict Z)
  : Runner :=
  MultiNodeRunner.add_export "MV2_CUDA_USE_NAIVE" "0"
    (MultiNodeRunner.add_export "MV2_INTER_ALLGATHER_TUNING" "5"
       (MultiNodeRunner.add_export "MV2_ENABLE_AFFINITY" "0"
          (MultiNodeRunner.add_export "MV2_SUPPORT_DL" "1"
             (MultiNodeRunner.add_export "MV2_USE_CUDA" "1"
                (MultiNodeRunner.add_export "MV2_DEBUG_SHOW_BACKTRACE" "1"
                   (MultiNodeRunner.add_export "MV2_SMP_USE_CMA" "0"
                      (MultiNodeRunner.with_resource_pool pool
                         (MultiNodeRunner.init a
                            (MultiNodeRunner.parse_user_args a)
                            world_info)))))))).

(** The loop [export_cmd += ['-env', f'{k}={v}']]. *)
Definition export_cmd (e : dict string) : list string :=
  fold_left
    (fun acc kv => (acc ++ ["-env"; (fst kv ++ "=" ++ snd kv)%string])%list)
    e [].

(** What the loop [fd.write(f'{host}\n')] leaves in the file. *)
Definition hostfile_text (pool : dict Z) : string :=
  fold_left (fun acc host => acc ++ host ++ Py.LF) (Dict.keys pool) "".

Section Constants.
(** [MVAPICH_TMP_HOSTFILE] of [deepspeed/launcher/constants.py]. *)
Variable MVAPICH_TMP_HOSTFILE : string.

Definition get_cmd (p : Process) (self : Runner)
    (active_resources : dict (list Z)) : M (list string) :=
  assert_ (String.eqb (include (args self)) ""
           && String.eqb (exclude (args self)) "")
    "mvapich backend does not support worker include/exclusion" ;;
  assert_ ((num_nodes (args self) =? -1) && (num_gpus (args self) =? -1))
    "mvapich backend does not support limiting num nodes/gpus" ;;
  assert_ (negb (detect_nvlink_pairs (args self)))
    "openmpi backend does not support remapping visible devices" ;;
  let devices_per_node := Dict.values (resource_pool self) in
  let total_process_count := Py.sum devices_per_node in
  process_per_node <-
    lift (match devices_per_node with
          | [] => Raise IndexError
          | n :: _ => Ok n
          end) ;;
  assert_ (forallb (fun n => n =? process_per_node) devices_per_node)
    "mvapich requires same number of devices per node" ;;
  write_file MVAPICH_TMP_HOSTFILE (hostfile_text (resource_pool self)) ;;
  let mpirun_cmd :=
    ["mpirun";
     "-np";
     Py.str_int total_process_count;
     "-ppn";
     Py.str_int process_per_node;
     "--hostfile";
     MVAPICH_TMP_HOSTFILE] in
  let export_cmd := export_cmd (exports self) in
  let python_exec := [sys_executable p; "-u"] in
  ret (mpirun_cmd ++ export_cmd ++ python_exec ++ [runner_user_script self]
       ++ user_arguments self)%list.
End Constants.

End MVAPICHRunner.

(** ** MosaicMLRunner *)

Module MosaicMLRunner.

Definition message : string :=
  "Please use plain json for your configs. Check for comments and lowercase trues".

Section Json.
Variable json_loads : string -> result pyval.
Variable json_dumps : pyval -> string -> string -> string.

Definition parse_user_args (a : LaunchConfig) : result (list string) :=
  JsonArgs.parse_user_args json_loads json_dumps message a.

Definition init (a : LaunchConfig) (world_info : string) : result Runner :=
  normalized <- parse_user_args a ;;
  Ok (MultiNodeRunner.init a normalized world_info).
End Json.

(** [os.environ[key]]. *)
Definition environ_item (p : Process) (key : string) : result string :=
  match Dict.get key (os_environ p) with
  | Some v => Ok v
  | None => Raise (KeyError key)
  end.

Definition get_cmd (p : Process) (self : Runner)
    (active_resources : dict (list Z)) : M (list string) :=
  node_rank <- lift (environ_item p "NODE_RANK") ;;
  master_addr <- lift (environ_item p "MASTER_ADDR") ;;
  master_port <- lift (environ_item p "MASTER_PORT") ;;
  let deepspeed_launch :=
    [sys_executable p;
     "-u";
     "-m";
     "deepspeed.launcher.launch";
     "--world_info=" ++ world_info_base64 self;
     "--node_rank=" ++ node_rank;
     "--master_addr=" ++ master_addr;
     "--master_port=" ++ master_port] in
  ret (deepspeed_launch ++ [runner_user_script self]
       ++ user_arguments self)%list.

End MosaicMLRunner.

(** ** Method dispatch and the error kinds *)

(** The five concrete classes.  A call [runner.get_cmd(...)] runs the method
    of the class of [runner]. *)
Inductive Backend : Type := PDSH | OpenMPI | Slurm | MVAPICH | MosaicML.

Module Dispatch.
Section Launcher.
Variable PDSH_MAX_FAN_OUT : Z.
Variable MVAPICH_TMP_HOSTFILE : string.
Variable json_loads : string -> result pyval.
Variable json_dumps : pyval -> string -> string -> string.

(** [parse_user_args] of the class. *)
Definition parse_user_args (b : Backend) (a : LaunchConfig)
  : result (list string) :=
  match b with
  | PDSH => Ok (PDSHRunner.parse_user_args a)
  | OpenMPI | MVAPICH => Ok (MultiNodeRunner.parse_user_args a)
  | Slurm => SlurmRunner.parse_user_args json_loads json_dumps a
  | MosaicML => MosaicMLRunner.parse_user_args json_loads json_dumps a
  end.

(** The constructor of the class; [pool] is ignored by the two classes
    whose constructor takes none. *)
Definition new (b : Backend) (a : LaunchConfig) (world_info : string)
    (pool : dict Z) : result Runner :=
  match b with
  | PDSH => Ok (PDSHRunner.init a world_info)
  | OpenMPI => Ok (OpenMPIRunner.init a world_info pool)
  | Slurm => SlurmRunner.init json_loads json_dumps a world_info pool
  | MVAPICH => Ok (MVAPICHRunner.init a world_info pool)
  | MosaicML => MosaicMLRunner.init json_loads json_dumps a world_info
  end.

(** [get_cmd] of the class. *)
Definition get_cmd (b : Backend) (p : Process) (self : Runner)
    (active_resources : dict (list Z)) : M (list string) :=
  match b with
  | PDSH => PDSHRunner.get_cmd PDSH_MAX_FAN_OUT p self active_resources
  | OpenMPI => OpenMPIRunner.get_cmd p self active_resources
  | Slurm => SlurmRunner.get_cmd p self active_resources
  | MVAPICH =>
      MVAPICHRunner.get_cmd MVAPICH_TMP_HOSTFILE p self active_resources
  | MosaicML => MosaicMLRunner.get_cmd p self active_resources
  end.
End Launcher.
End Dispatch.

(** A sequence of [runner.add_export(key, var)] calls, first call first. *)
Definition add_exports (calls : list (string * string)) (self : Runner)
  : Runner :=
  fold_left (fun r kv => MultiNodeRunner.add_export (fst kv) (snd kv) r)
            calls self.

(** The messages of the assertions that check what a backend can do. *)
Definition capability_messages : list string :=
  ["openmpi backend does not support worker include/exclusion";
   "openmpi backend does not support limiting num nodes/gpus";
   "openmpi backend does not support remapping visible devices";
   "slurm backend does not support remapping visible devices";
   "mvapich backend does not support worker include/exclusion";
   "mvapich backend does not support limiting num nodes/gpus"].

(** The error kinds of the specification, as the code raises them: a failed
    capability assertion, the failed assertion on equal device counts, and
    the [ValueError] raised from a [JSONDecodeError]. *)
Definition UnsupportedConfiguration (e : exn) : bool :=
  match e with
  | AssertionError msg => existsb (String.eqb msg) capability_messages
  | _ => false
  end.

Definition HeterogeneousResourcePool : exn :=
  AssertionError "mvapich requires same number of devices per node".

Definition InvalidUserConfig (e : exn) : bool :=
  match e with
  | ValueError msg (JSONDecodeError _) =>
      String.eqb msg SlurmRunner.message
      || String.eqb msg MosaicMLRunner.message
  | _ => false
  end.

(** What a backend requires of the configuration before it builds a
    command. *)
Definition no_filters (a : LaunchConfig) : bool :=
  String.eqb (include a) "" && String.eqb (exclude a) ""
  && (num_nodes a =? -1) && (num_gpus a =? -1).

Definition supported (b : Backend) (a : LaunchConfig) : bool :=
  match b with
  | PDSH | MosaicML => true
  | OpenMPI | MVAPICH => no_filters a && negb (detect_nvlink_pairs a)
  | Slurm => negb (detect_nvlink_pairs a)
  end.

(** The process state a backend's [get_cmd] reads. *)
Definition same_reads (b : Backend) (p q : Process) : Prop :=
  sys_executable p = sys_executable q /\
  match b with
  | PDSH => cwd p = cwd q
  | OpenMPI =>
      OpenMPIRunner.allow_run_as_root p = OpenMPIRunner.allow_run_as_root q
  | Slurm | MVAPICH => True
  | MosaicML =>
      Dict.get "NODE_RANK" (os_environ p) = Dict.get "NODE_RANK" (os_environ q)
      /\ Dict.get "MASTER_ADDR" (os_environ p)
         = Dict.get "MASTER_ADDR" (os_environ q)
      /\ Dict.get "MASTER_PORT" (os_environ p)
         = Dict.get "MASTER_PORT" (os_environ q)
  end.

(** ** A reference [json] codec

    A decoder and an encoder that follow [json.loads] and [json.dumps] on
    JSON texts whose numbers are integers and whose strings have no [\u]
    escape.  The theorems on the builders hold for every decoder and
    encoder; this one runs their examples.  A text outside the fragment is
    answered with [Unsupported]. *)

Module RefJson.

Definition Unsupported : exn := OtherError "outside the reference fragment".

Definition is_ws (c : ascii) : bool :=
  Ascii.eqb c " " || Ascii.eqb c "009" || Ascii.eqb c "010"
  || Ascii.eqb c "013".

Fixpoint skip_ws (s : string) : string :=
  match s with
  | String c r => if is_ws c then skip_ws r else s
  | EmptyString => s
  end.

(** The character a backslash escape stands for. *)
Definition unescape (e : ascii) : option ascii :=
  if Ascii.eqb e Py.DQ then Some Py.DQ
  else if Ascii.eqb e "\" then Some "\"%char
  else if Ascii.eqb e "/" then Some "/"%char
  else if Ascii.eqb e "b" then Some "008"%char
  else if Ascii.eqb e "f" then Some "012"%char
  else if Ascii.eqb e "n" then Some "010"%char
  else if Ascii.eqb e "r" then Some "013"%char
  else if Ascii.eqb e "t" then Some "009"%char
  else None.

(** The text of a string up to its closing quote, and what follows. *)
Fixpoint scan_string (s : string) : result (string * string) :=
  match s with
  | EmptyString => Raise (JSONDecodeError "Unterminated string starting at")
  | String c r =>
      if Ascii.eqb c Py.DQ then Ok (EmptyString, r)
      else if Ascii.eqb c "\" then
        match r with
        | EmptyString =>
            Raise (JSONDecodeError "Unterminated string starting at")
        | String e r' =>
            match unescape e with
            | Some ch =>
                tr <- scan_string r' ;; Ok (String ch (fst tr), snd tr)
            | None =>
                if Ascii.eqb e "u" then Raise Unsupported
                else Raise (JSONDecodeError "Invalid \escape")
            end
        end
      else if (N_of_ascii c <? 32)%N then
        Raise (JSONDecodeError "Invalid control character at")
      else tr <- scan_string r ;; Ok (String c (fst tr), snd tr)
  end.

Definition is_digit (c : ascii) : bool :=
  (48 <=? N_of_ascii c)%N && (N_of_ascii c <=? 57)%N.

(** The value of a run of digits read after [acc], and what follows. *)
Fixpoint scan_digits (acc : Z) (s : string) : Z * string :=
  match s with
  | String c r =>
      if is_digit c
      then scan_digits (10 * acc + Z.of_N (N_of_ascii c) - 48) r
      else (acc, s)
  | EmptyString => (acc, s)
  end.

(** After the integer part: a fraction or an exponent is outside the
    fragment. *)
Definition int_result (n : Z) (rest : string) : result (pyval * string) :=
  if Py.startswith "." rest || Py.startswith "e" rest
     || Py.startswith "E" rest
  then Raise Unsupported
  else Ok (PInt n, rest).

(** An integer: [0], or a run of digits that starts with a non-zero one. *)
Definition scan_nat (s : string) : option (Z * string) :=
  match s with
  | String c r =>
      if Ascii.eqb c "0" then Some (0, r)
      else if is_digit c then Some (scan_digits 0 s)
      else None
  | EmptyString => None
  end.

Definition scan_number (s : string) : result (pyval * string) :=
  match s with
  | String c r =>
      if Ascii.eqb c "-" then
        match scan_nat r with
        | Some (n, rest) => int_result (- n) rest
        | None =>
            if Py.startswith "I" r then Raise Unsupported
            else Raise (JSONDecodeError "Expecting value")
        end
      else
        match scan_nat s with
        | Some (n, rest) => int_result n rest
        | None =>
            if Ascii.eqb c "N" || Ascii.eqb c "I" then Raise Unsupported
            else Raise (JSONDecodeError "Expecting value")
        end
  | EmptyString => Raise (JSONDecodeError "Expecting value")
  end.

(** [s] without the literal [lit] at its start. *)
Fixpoint after (lit s : string) : option string :=
  match lit, s with
  | EmptyString, _ => Some s
  | String a l, String b r => if Ascii.eqb a b then after l r else None
  | String _ _, EmptyString => None
  end.

(** One value at the start of [s]; [scan_members] and [scan_elements] read
    the rest of an object after its brace and of an array after its
    bracket.  A repeated key keeps its first place and its last value, as
    [dict] does. *)
Fixpoint scan_value (fuel : nat) (s : string) : result (pyval * string) :=
  match fuel with
  | O => Raise (OtherError "RecursionError")
  | S fuel' =>
      match s with
      | EmptyString => Raise (JSONDecodeError "Expecting value")
      | String c r =>
          if Ascii.eqb c Py.DQ then
            tr <- scan_string r ;; Ok (PStr (fst tr), snd tr)
          else if Ascii.eqb c "{" then
            match skip_ws r with
            | String "}" r' => Ok (PDict [], r')
            | r' => scan_members fuel' [] r'
            end
          else if Ascii.eqb c "[" then
            match skip_ws r with
            | String "]" r' => Ok (PList [], r')
            | r' => scan_elements fuel' [] r'
            end
          else
            match after "null" s, after "true" s, after "false" s with
            | Some r', _, _ => Ok (PNone, r')
            | _, Some r', _ => Ok (PBool true, r')
            | _, _, Some r' => Ok (PBool false, r')
            | _, _, _ => scan_number s
            end
      end
  end

with scan_members (fuel : nat) (acc : list (string * pyval)) (s : string)
  : result (pyval * string) :=
  match fuel with
  | O => Raise (OtherError "RecursionError")
  | S fuel' =>
      match s with
      | String c r =>
          if Ascii.eqb c Py.DQ then
            kr <- scan_string r ;;
            match skip_ws (snd kr) with
            | String ":" r1 =>
                vr <- scan_value fuel' (skip_ws r1) ;;
                let acc' := Dict.set (fst kr) (fst vr) acc in
                match skip_ws (snd vr) with
                | String "}" r2 => Ok (PDict acc', r2)
                | String "," r2 => scan_members fuel' acc' (skip_ws r2)
                | _ => Raise (JSONDecodeError "Expecting ',' delimiter")
                end
            | _ => Raise (JSONDecodeError "Expecting ':' delimiter")
            end
          else
            Raise (JSONDecodeError
                     "Expecting property name enclosed in double quotes")
      | EmptyString =>
          Raise (JSONDecodeError
                   "Expecting property name enclosed in double quotes")
      end
  end

with scan_elements (fuel : nat) (acc : list pyval) (s : string)
  : result (pyval * string) :=
  match fuel with
  | O => Raise (OtherError "RecursionError")
  | S fuel' =>
      vr <- scan_value fuel' s ;;
      let acc' := (acc ++ [fst vr])%list in
      match skip_ws (snd vr) with
      | String "]" r => Ok (PList acc', r)
      | String "," r => scan_elements fuel' acc' (skip_ws r)
      | _ => Raise (JSONDecodeError "Expecting ',' delimiter")
      end
  end.

(** [json.loads(s)]. *)
Definition json_loads (s : string) : result pyval :=
  vr <- scan_value (S (String.length s)) (skip_ws s) ;;
  match skip_ws (snd vr) with
  | EmptyString => Ok (fst vr)
  | _ => Raise (JSONDecodeError "Extra data")
  end.

Definition hex_digit (n : N) : ascii :=
  match String.get (N.to_nat n) "0123456789abcdef" with
  | Some c => c
  | None => "0"%char
  end.

(** The text [json.dumps] writes for one character of a string, with
    [ensure_ascii] on. *)
Definition escape_char (c : ascii) : string :=
  let n := N_of_ascii c in
  if Ascii.eqb c Py.DQ then String "\" (String Py.DQ EmptyString)
  else if Ascii.eqb c "\" then "\\"
  else if Ascii.eqb c "010" then "\n"
  else if Ascii.eqb c "013" then "\r"
  else if Ascii.eqb c "009" then "\t"
  else if Ascii.eqb c "012" then "\f"
  else if Ascii.eqb c "008" then "\b"
  else if ((32 <=? n) && (n <=? 126))%N then String c EmptyString
  else "\u00" ++ String (hex_digit (n / 16)) (String (hex_digit (n mod 16))
                                                     EmptyString).

Fixpoint escape (s : string) : string :=
  match s with
  | EmptyString => EmptyString
  | String c r => escape_char c ++ escape r
  end.

Definition encode_str (s : string) : string :=
  String Py.DQ (escape s ++ String Py.DQ EmptyString).

(** [json.dumps(v, separators=(item_sep, key_sep))]. *)
Fixpoint json_dumps (v : pyval) (item_sep key_sep : string) : string :=
  match v with
  | PNone => "null"
  | PBool true => "true"
  | PBool false => "false"
  | PInt n => Py.str_int n
  | PFloat repr => repr
  | PStr s => encode_str s
  | PList l =>
      "[" ++ Py.join item_sep
               (map (fun x => json_dumps x item_sep key_sep) l) ++ "]"
  | PDict d =>
      "{" ++ Py.join item_sep
               (map (fun kv => encode_str (fst kv) ++ key_sep
                               ++ json_dumps (snd kv) item_sep key_sep) d)
          ++ "}"
  end.

End RefJson.

(** ** Predicates used in the statements *)

(** Every character of [s] is white space. *)
Fixpoint all_space (s : string) : bool :=
  match s with
  | EmptyString => true
  | String c r => Py.isspace c && all_space r
  end.

(** [s] begins, or ends, with a white space character. *)
Definition leading_space (s : string) : bool :=
  match s with
  | EmptyString => false
  | String c _ => Py.isspace c
  end.

Fixpoint trailing_space (s : string) : bool :=
  match s with
  | EmptyString => false
  | String c EmptyString => Py.isspace c
  | String _ r => trailing_space r
  end.

(** The export table as its description has it, not as the code computes
    it.  [first_occurrences seen ks]: the keys of [ks] not in [seen], each
    once, in the order of their first insertion.  [last_inserted k calls]:
    the trimmed value of the last call whose trimmed key is [k]. *)
Fixpoint first_occurrences (seen ks : list string) : list string :=
  match ks with
  | [] => []
  | k :: r =>
      if existsb (String.eqb k) seen then first_occurrences seen r
      else k :: first_occurrences (seen ++ [k]) r
  end.

Fixpoint last_inserted (k : string) (calls : list (string * string))
  : option string :=
  match calls with
  | [] => None
  | (k', v) :: r =>
      match last_inserted k r with
      | Some w => Some w
      | None => if String.eqb k (Py.strip k') then Some (Py.strip v) else None
      end
  end.

(** The default exports of the two MPI constructors. *)
Definition openmpi_defaults : dict string := [("UCX_TLS", "tcp")].

Definition mvapich_defaults : dict string :=
  [("MV2_SMP_USE_CMA", "0");
   ("MV2_DEBUG_SHOW_BACKTRACE", "1");
   ("MV2_USE_CUDA", "1");
   ("MV2_SUPPORT_DL", "1");
   ("MV2_ENABLE_AFFINITY", "0");
   ("MV2_INTER_ALLGATHER_TUNING", "5");
   ("MV2_CUDA_USE_NAIVE", "0")].

(** ** The availability probes

    [backend_exists] of the five classes.  What the host answers is a
    parameter: [which] is [shutil.which], [check_output cmd] is
    [subprocess.check_output(cmd, shell=True)] (the bytes printed, or the
    exception raised), and [decode_utf8] is [bytes.decode('utf-8')].  The
    probe of MVAPICH reports what it did: the commands it ran and the
    warnings it gave, in order. *)

Record Host : Type := {
  which : string -> option string;
  check_output : string -> result string
}.

Inductive event : Type :=
| Ran (cmd : string)
| Warned (msg : string).

Module Probes.

(** [shutil.which(name)] as the callers test it: found under a non-empty
    path. *)
Definition found (h : Host) (name : string) : bool :=
  match which h name with
  | Some path => negb (String.eqb path "")
  | None => false
  end.

Definition PDSHRunner_backend_exists (h : Host) : option string :=
  which h "pdsh".

Definition OpenMPIRunner_backend_exists (h : Host) : option string :=
  which h "ompi_info".

Definition SlurmRunner_backend_exists (h : Host) : option string :=
  which h "sinfo".

Definition MosaicMLRunner_backend_exists (h : Host) : bool := true.

Section Decode.
Variable decode_utf8 : string -> result string.

Definition MVAPICHRunner_backend_exists (h : Host)
  : result bool * list event :=
  if negb (found h "mpiname") then
    (Ok false,
     [Warned "mpiname does not exist, mvapich is not installed properly"])
  else
    match check_output h "mpiname" with
    | Raise e => (Raise e, [Ran "mpiname"])
    | Ok results =>
        match decode_utf8 results with
        | Raise e => (Raise e, [Ran "mpiname"])
        | Ok text =>
            let mpiname_results := Py.strip text in
            if Py.contains "MVAPICH2-GDR" mpiname_results
            then (Ok true, [Ran "mpiname"])
            else
              (Ok false,
               [Ran "mpiname";
                Warned ("Expected MVAPICH2-GDR as return for mpiname but received "
                        ++ mpiname_results)])
        end
    end.
End Decode.

End Probes.

(** The number of warnings in a report. *)
Definition warnings (log : list event) : nat :=
  List.length (filter (fun e => match e with
                                | Warned _ => true
                                | Ran _ => false
                                end) log).

(** ** Changed copies

    A configuration with other count limits, and a builder holding another
    configuration or another world info: the inputs of the statements that
    compare two launches. *)

Definition with_counts (nodes gpus : Z) (a : LaunchConfig) : LaunchConfig :=
  {| user_script := user_script a;
     user_args := user_args a;
     master_addr := master_addr a;
     master_port := master_port a;
     hostfile := hostfile a;
     include := include a;
     exclude := exclude a;
     num_nodes := nodes;
     num_gpus := gpus;
     detect_nvlink_pairs := detect_nvlink_pairs a;
     comment := comment a |}.

Definition with_args (a : LaunchConfig) (self : Runner) : Runner :=
  {| args := a;
     user_arguments := user_arguments self;
     runner_user_script := runner_user_script self;
     world_info_base64 := world_info_base64 self;
     exports := exports self;
     resource_pool := resource_pool self |}.

(** The entries of a table are trimmed on both sides. *)
Definition trimmed_table (e : dict string) : Prop :=
  forall k v, In (k, v) e ->
              leading_space k = false /\ trailing_space k = false
              /\ leading_space v = false /\ trailing_space v = false.

(** [s] without its first and its last character. *)
Definition inner (s : string) : string :=
  String.substring 1 (String.length s - 2) s.

(** [v] is not a [str]. *)
Definition not_str (v : pyval) : bool :=
  match v with
  | PStr _ => false
  | _ => true
  end.

(** [v] is not a [dict]. *)
Definition not_dict (v : pyval) : bool :=
  match v with
  | PDict _ => false
  | _ => true
  end.

(** ** A launch used in the examples *)

Module Example.

Definition PDSH_MAX_FAN_OUT : Z := 1024.
Definition MVAPICH_TMP_HOSTFILE : string := "/tmp/deepspeed_mvapich_hostfile".

(** The methods with the constants and the codec of the example. *)
Definition get_cmd :=
  Dispatch.get_cmd PDSH_MAX_FAN_OUT MVAPICH_TMP_HOSTFILE.
Definition new := Dispatch.new RefJson.json_loads RefJson.json_dumps.

Definition cfg : LaunchConfig :=
  {| user_script := "train.py";
     user_args := ["--foo"; "bar baz"];
     master_addr := "10.0.0.1";
     master_port := 29500;
     hostfile := "/job/hostfile";
     include := "";
     exclude := "";
     num_nodes := -1;
     num_gpus := -1;
     detect_nvlink_pairs := false;
     comment := "" |}.

(** [cfg] with other user arguments. *)
Definition with_user_args (l : list string) (a : LaunchConfig)
  : LaunchConfig :=
  {| user_script := user_script a;
     user_args := l;
     master_addr := master_addr a;
     master_port := master_port a;
     hostfile := hostfile a;
     include := include a;
     exclude := exclude a;
     num_nodes := num_nodes a;
     num_gpus := num_gpus a;
     detect_nvlink_pairs := detect_nvlink_pairs a;
     comment := comment a |}.

(** [cfg] asking for NVLink pairs, and [cfg] restricted to one host. *)
Definition cfg_nvlink : LaunchConfig :=
  {| user_script := "train.py";
     user_args := ["--foo"; "bar baz"];
     master_addr := "10.0.0.1";
     master_port := 29500;
     hostfile := "/job/hostfile";
     include := "";
     exclude := "";
     num_nodes := -1;
     num_gpus := -1;
     detect_nvlink_pairs := true;
     comment := "" |}.

Definition cfg_include : LaunchConfig :=
  {| user_script := "train.py";
     user_args := ["--foo"; "bar baz"];
     master_addr := "10.0.0.1";
     master_port := 29500;
     hostfile := "/job/hostfile";
     include := "h1";
     exclude := "";
     num_nodes := -1;
     num_gpus := -1;
     detect_nvlink_pairs := false;
     comment := "" |}.

Definition pool_equal : dict Z := [("h1", 4); ("h2", 4)].
Definition pool_unequal : dict Z := [("h1", 4); ("h2", 2)].

Definition active : dict (list Z) :=
  [("h1", [0; 1; 2; 3]); ("h2", [0; 1; 2; 3])].

(** Two processes that differ in the working directory only, and one that
    differs from the first in [RUN_MPI_AS_ROOT] only. *)
Definition proc : Process :=
  {| os_environ := [("NODE_RANK", "0"); ("MASTER_ADDR", "10.0.0.1");
                    ("MASTER_PORT", "29500")];
     cwd := "/home/user/job";
     sys_executable := "/usr/bin/python3" |}.

Definition proc_elsewhere : Process :=
  {| os_environ := os_environ proc;
     cwd := "/scratch";
     sys_executable := sys_executable proc |}.

Definition proc_root : Process :=
  {| os_environ := ("RUN_MPI_AS_ROOT", "1") :: os_environ proc;
     cwd := cwd proc;
     sys_executable := sys_executable proc |}.

Definition store : Store :=
  {| environment := [("PATH", "/usr/bin")]; files := [] |}.

(** The argument of the round-trip example and what it is rewritten to. *)
Definition config_arg : string :=
  Py.dq "{`config_files`: {`a`: `{\`x\`: true}`}}".

Definition config_arg_compact : string :=
  Py.dq "{`config_files`:{`a`:{`x`:true}}}".

End Example.

(** ** More of the example launch *)

Module MoreExamples.
Import Example.

Definition slurm_runner (world_info : string) : Runner :=
  MultiNodeRunner.with_resource_pool pool_equal
    (MultiNodeRunner.init cfg ["--foo"; "bar baz"] world_info).

Definition pool_reversed : dict Z := [("h2", 4); ("h1", 4)].

(** The hosts of [active] with other device lists. *)
Definition active_few : dict (list Z) := [("h1", [0]); ("h2", [])].

(** An argument whose [config_files] holds a number. *)
Definition config_arg_number : string := Py.dq "{`config_files`: {`a`: 5}}".

(** A host with [mpiname] of another MPI, and one with MVAPICH2-GDR. *)
Definition host_other : Host :=
  {| which := fun name =>
       if String.eqb name "mpiname" then Some "/usr/bin/mpiname" else None;
     check_output := fun _ => Ok ("MVAPICH2 2.3" ++ Py.LF) |}.

Definition host_gdr : Host :=
  {| which := fun name =>
       if String.eqb name "mpiname" then Some "/usr/bin/mpiname" else None;
     check_output := fun _ => Ok ("MVAPICH2-GDR 2.3.7" ++ Py.LF) |}.

(** Decoding of a text of ASCII characters. *)
Definition decode_ascii (bytes : string) : result string := Ok bytes.

End MoreExamples.

(** * Properties *)

(** ** Dictionaries *)

Section DictFacts.
Context {V : Type}.
Implicit Types (d : dict V) (k : string) (v : V).

Lemma get_set_same k v d : Dict.get k (Dict.set k v d) = Some v.
Proof.
  induction d as [|[k' v'] r IH]; simpl.
  - now rewrite String.eqb_refl.
  - destruct (String.eqb k k') eqn:E; simpl; rewrite E; auto.
Qed.

Lemma get_set_other k k' v d :
  k' <> k -> Dict.get k' (Dict.set k v d) = Dict.get k' d.
Proof.
  intros N. induction d as [|[k0 v0] r IH]; simpl.
  - destruct (String.eqb k' k) eqn:E; auto.
    apply String.eqb_eq in E. contradiction.
  - destruct (String.eqb k k0) eqn:E; simpl.
    + apply String.eqb_eq in E. subst k0.
      destruct (String.eqb k' k) eqn:E'; auto.
      apply String.eqb_eq in E'. contradiction.
    + now rewrite IH.
Qed.

Lemma keys_set_in k v d :
  In k (Dict.keys d) -> Dict.keys (Dict.set k v d) = Dict.keys d.
Proof.
  induction d as [|[k0 v0] r IH]; simpl; [tauto|].
  intros [E|I].
  - subst k0. now rewrite String.eqb_refl.
  - destruct (String.eqb k k0); simpl; [reflexivity|].
    f_equal. now apply IH.
Qed.

Lemma set_notin k v d :
  ~ In k (Dict.keys d) -> Dict.set k v d = (d ++ [(k, v)])%list.
Proof.
  induction d as [|[k0 v0] r IH]; simpl; [reflexivity|].
  intros N. destruct (String.eqb k k0) eqn:E.
  - apply String.eqb_eq in E. subst. tauto.
  - f_equal. apply IH. tauto.
Qed.

Lemma mem_keys k d : Dict.mem k d = true <-> In k (Dict.keys d).
Proof.
  unfold Dict.mem. induction d as [|[k0 v0] r IH]; simpl.
  - split; [discriminate|tauto].
  - destruct (String.eqb k k0) eqn:E.
    + apply String.eqb_eq in E. subst. tauto.
    + apply String.eqb_neq in E. rewrite IH. split; [tauto|].
      intros [H|H]; [congruence|exact H].
Qed.

End DictFacts.

(** ** Strings *)

Lemma lstrip_spec s :
  exists l, s = l ++ Py.lstrip s /\ all_space l = true
            /\ leading_space (Py.lstrip s) = false.
Proof.
  induction s as [|c r (l & E & A & L)]; simpl.
  - exists "". auto.
  - destruct (Py.isspace c) eqn:C.
    + exists (String c l). simpl. rewrite C, A. repeat split; auto.
      now rewrite <- E.
    + exists "". simpl. auto.
Qed.

Lemma rstrip_spec s :
  exists r, s = Py.rstrip s ++ r /\ all_space r = true
            /\ trailing_space (Py.rstrip s) = false.
Proof.
  induction s as [|c t (r & E & A & T)]; simpl.
  - exists "". auto.
  - destruct (Py.rstrip t) as [|c' t'] eqn:R.
    + simpl in E. subst t. destruct (Py.isspace c) eqn:C.
      * exists (String c r). simpl. rewrite C, A. auto.
      * exists r. simpl. rewrite C. auto.
    + exists r. simpl in E. rewrite E. auto.
Qed.

Lemma rstrip_leading s :
  leading_space s = false -> leading_space (Py.rstrip s) = false.
Proof.
  destruct s as [|c t]; simpl; auto.
  intros C. destruct (Py.rstrip t); [rewrite C|]; simpl; auto.
Qed.

(** [strip] removes a run of white space at each end and nothing else, and
    what is left neither begins nor ends with white space. *)
Lemma strip_spec s :
  exists l r, s = l ++ Py.strip s ++ r
              /\ all_space l = true /\ all_space r = true
              /\ leading_space (Py.strip s) = false
              /\ trailing_space (Py.strip s) = false.
Proof.
  unfold Py.strip.
  destruct (lstrip_spec s) as (l & E & A & L).
  destruct (rstrip_spec (Py.lstrip s)) as (r & E' & A' & T).
  exists l, r. repeat split; auto.
  - now rewrite <- E'.
  - now apply rstrip_leading.
Qed.

Lemma append_nil_r (s : string) : s ++ "" = s.
Proof. induction s; simpl; congruence. Qed.

Lemma append_assoc (s t u : string) : (s ++ t) ++ u = s ++ t ++ u.
Proof. induction s; simpl; congruence. Qed.

(** ** Loops that accumulate *)

(** A loop that appends [f x] to a list for each [x] builds the pieces in the
    order of the iteration. *)
Lemma fold_left_app_flat_map {A B} (f : A -> list B) (l : list A) init :
  fold_left (fun acc x => (acc ++ f x)%list) l init
  = (init ++ flat_map f l)%list.
Proof.
  revert init. induction l as [|x r IH]; intros init; simpl.
  - now rewrite app_nil_r.
  - rewrite IH. now rewrite <- app_assoc.
Qed.

(** The same for a loop that appends to a string. *)
Lemma fold_left_append {A} (f : A -> string) (l : list A) init :
  fold_left (fun acc x => acc ++ f x) l init
  = init ++ fold_right (fun x rest => f x ++ rest) "" l.
Proof.
  revert init. induction l as [|x r IH]; intros init; simpl.
  - now rewrite append_nil_r.
  - rewrite IH. now rewrite append_assoc.
Qed.

(** A list ends with [t] when some [front] comes before it. *)
Lemma suffix_here {A} (t : list A) : exists front, t = (front ++ t)%list.
Proof. now exists []. Qed.

Lemma suffix_cons {A} (x : A) (l t : list A) :
  (exists front, l = (front ++ t)%list) ->
  exists front, x :: l = (front ++ t)%list.
Proof. intros [f ->]. now exists (x :: f). Qed.

Lemma suffix_app {A} (l0 l t : list A) :
  (exists front, l = (front ++ t)%list) ->
  exists front, (l0 ++ l)%list = (front ++ t)%list.
Proof. intros [f ->]. exists (l0 ++ f)%list. apply app_assoc. Qed.

(** ** The builders *)

(** Runs the sequencing of a [get_cmd] body. *)
Ltac run_cmd :=
  cbn [bind ret M_monad result_monad assert_ lift environment_set write_file
       fst snd].

Section Builders.
Variable PDSH_MAX_FAN_OUT : Z.
Variable MVAPICH_TMP_HOSTFILE : string.
Variable json_loads : string -> result pyval.
Variable json_dumps : pyval -> string -> string -> string.

Let get_cmd := Dispatch.get_cmd PDSH_MAX_FAN_OUT MVAPICH_TMP_HOSTFILE.

Implicit Types (p : Process) (self : Runner) (st : Store)
         (active_resources : dict (list Z)).

(** The capability assertions of the two MPI builders come first and
    leave the store alone when one of them fails. *)
Lemma openmpi_rejects p self active_resources st :
  supported OpenMPI (args self) = false ->
  exists e, UnsupportedConfiguration e = true
            /\ OpenMPIRunner.get_cmd p self active_resources st
               = (Raise e, st).
Proof.
  unfold supported, no_filters, OpenMPIRunner.get_cmd. intros H. run_cmd.
  destruct (String.eqb (include (args self)) ""
            && String.eqb (exclude (args self)) "") eqn:E1; run_cmd;
    [|eexists; split; [|reflexivity]; reflexivity].
  destruct ((num_nodes (args self) =? -1) && (num_gpus (args self) =? -1))
    eqn:E2; run_cmd; [|eexists; split; [|reflexivity]; reflexivity].
  destruct (detect_nvlink_pairs (args self)); run_cmd;
    [eexists; split; [|reflexivity]; reflexivity|].
  cbn [andb] in H. rewrite E2 in H. discriminate.
Qed.

Lemma mvapich_rejects p self active_resources st :
  supported MVAPICH (args self) = false ->
  exists e, UnsupportedConfiguration e = true
            /\ MVAPICHRunner.get_cmd MVAPICH_TMP_HOSTFILE p self
                 active_resources st
               = (Raise e, st).
Proof.
  unfold supported, no_filters, MVAPICHRunner.get_cmd. intros H. run_cmd.
  destruct (String.eqb (include (args self)) ""
            && String.eqb (exclude (args self)) "") eqn:E1; run_cmd;
    [|eexists; split; [|reflexivity]; reflexivity].
  destruct ((num_nodes (args self) =? -1) && (num_gpus (args self) =? -1))
    eqn:E2; run_cmd; [|eexists; split; [|reflexivity]; reflexivity].
  destruct (detect_nvlink_pairs (args self)); run_cmd;
    [eexists; split; [|reflexivity]; reflexivity|].
  cbn [andb] in H. rewrite E2 in H. discriminate.
Qed.

(** C2. Whatever the other fields of the configuration are, with
    [detect_nvlink_pairs] set the [get_cmd] of the OpenMPI, the Slurm and
    the MVAPICH builder raises an unsupported-configuration error; no
    command is built, and the store (the hostfile included) is as it
    was. *)
Theorem nvlink_pairs_unsupported b p self active_resources st :
  detect_nvlink_pairs (args self) = true ->
  b = OpenMPI \/ b = Slurm \/ b = MVAPICH ->
  exists e, UnsupportedConfiguration e = true
            /\ get_cmd b p self active_resources st = (Raise e, st).
Proof.
  intros D [B|[B|B]]; subst b; unfold get_cmd, Dispatch.get_cmd.
  - apply openmpi_rejects. simpl. rewrite D. apply andb_false_r.
  - unfold SlurmRunner.get_cmd. rewrite D. run_cmd.
    eexists; split; [|reflexivity]; reflexivity.
  - apply mvapich_rejects. simpl. rewrite D. apply andb_false_r.
Qed.

(** C8. With a non-empty [include] or [exclude], or with [num_nodes] or
    [num_gpus] other than -1, the [get_cmd] of the OpenMPI and of the
    MVAPICH builder raises an unsupported-configuration error; no command
    is built and the store is as it was, so the MVAPICH hostfile has not
    been written. *)
Theorem filters_unsupported b p self active_resources st :
  include (args self) <> "" \/ exclude (args self) <> ""
  \/ num_nodes (args self) <> -1 \/ num_gpus (args self) <> -1 ->
  b = OpenMPI \/ b = MVAPICH ->
  exists e, UnsupportedConfiguration e = true
            /\ get_cmd b p self active_resources st = (Raise e, st).
Proof.
  intros H B.
  assert (F : no_filters (args self) = false).
  { unfold no_filters. apply not_true_is_false. intros T.
    apply andb_prop in T. destruct T as [T G].
    apply andb_prop in T. destruct T as [T N].
    apply andb_prop in T. destruct T as [I X].
    destruct H as [H|[H|[H|H]]]; apply H.
    - now apply String.eqb_eq.
    - now apply String.eqb_eq.
    - now apply Z.eqb_eq.
    - now apply Z.eqb_eq. }
  destruct B; subst b; unfold get_cmd, Dispatch.get_cmd.
  - apply openmpi_rejects. simpl. now rewrite F.
  - apply mvapich_rejects. simpl. now rewrite F.
Qed.

(** C9. [PDSHRunner.get_cmd] always writes ['PDSH_RCMD_TYPE'] = ['ssh']
    into the mapping it was given, changing nothing else in the store; the
    [get_cmd] of every other builder leaves that mapping as it was,
    whether it returns a command or raises. *)
Theorem only_pdsh_writes_environment p self active_resources st :
  snd (get_cmd PDSH p self active_resources st)
  = {| environment := Dict.set "PDSH_RCMD_TYPE" "ssh" (environment st);
       files := files st |}
  /\ Dict.get "PDSH_RCMD_TYPE"
       (environment (snd (get_cmd PDSH p self active_resources st)))
     = Some "ssh"
  /\ (forall k, k <> "PDSH_RCMD_TYPE" ->
        Dict.get k
          (environment (snd (get_cmd PDSH p self active_resources st)))
        = Dict.get k (environment st))
  /\ (forall b, b <> PDSH ->
        environment (snd (get_cmd b p self active_resources st))
        = environment st).
Proof.
  assert (E : snd (get_cmd PDSH p self active_resources st)
              = {| environment :=
                     Dict.set "PDSH_RCMD_TYPE" "ssh" (environment st);
                   files := files st |}) by reflexivity.
  split; [exact E|]. rewrite E. cbn [environment].
  split; [apply get_set_same|].
  split; [intros k N; now apply get_set_other|].
  intros b N. destruct b; [contradiction| | | |];
    unfold get_cmd, Dispatch.get_cmd.
  - unfold OpenMPIRunner.get_cmd. run_cmd.
    repeat match goal with
           | |- context [if ?c then _ else _] => destruct c; run_cmd
           end; reflexivity.
  - unfold SlurmRunner.get_cmd. run_cmd.
    destruct (negb (detect_nvlink_pairs (args self))); reflexivity.
  - unfold MVAPICHRunner.get_cmd. run_cmd.
    repeat match goal with
           | |- context [if ?c then _ else _] => destruct c; run_cmd
           | |- context [match ?c with [] => _ | _ :: _ => _ end] =>
               destruct c; run_cmd
           end; reflexivity.
  - unfold MosaicMLRunner.get_cmd, MosaicMLRunner.environ_item. run_cmd.
    repeat match goal with
           | |- context [match ?c with Some _ => _ | None => _ end] =>
               destruct c; run_cmd
           end; reflexivity.
Qed.

(** What [MVAPICHRunner.get_cmd] returns once the capability assertions
    have passed on a pool whose first host has [n0] devices. *)
Lemma mvapich_get_cmd_supported p self active_resources st h0 n0 pool :
  supported MVAPICH (args self) = true ->
  resource_pool self = (h0, n0) :: pool ->
  fst (get_cmd MVAPICH p self active_resources st)
  = if forallb (fun n => n =? n0) (Dict.values (resource_pool self))
    then Ok (["mpirun"; "-np";
              Py.str_int (Py.sum (Dict.values (resource_pool self)));
              "-ppn"; Py.str_int n0;
              "--hostfile"; MVAPICH_TMP_HOSTFILE]
             ++ MVAPICHRunner.export_cmd (exports self)
             ++ [sys_executable p; "-u"]
             ++ [runner_user_script self] ++ user_arguments self)%list
    else Raise HeterogeneousResourcePool.
Proof.
  unfold supported, no_filters. intros H P.
  repeat (apply andb_prop in H; destruct H as [H ?]).
  unfold get_cmd, Dispatch.get_cmd, MVAPICHRunner.get_cmd.
  rewrite H, H0, H1, H2, H3, P. run_cmd. cbn [andb Dict.values map].
  run_cmd.
  destruct (forallb (fun n => n =? n0) (n0 :: map snd pool)); reflexivity.
Qed.

Lemma forallb_same_count (n0 : Z) (pool : dict Z) :
  forallb (fun n => n =? n0) (Dict.values pool) = true
  <-> forall h n, In (h, n) pool -> n = n0.
Proof.
  unfold Dict.values. rewrite forallb_forall. split.
  - intros H h n I. apply Z.eqb_eq. apply H.
    change n with (snd (h, n)). now apply in_map.
  - intros H n I. apply in_map_iff in I. destruct I as ([h n'] & E & I).
    simpl in E. subst n'. apply Z.eqb_eq. eapply H. exact I.
Qed.

(** C3. On a configuration the MVAPICH builder supports and a non-empty
    resource pool, [get_cmd] raises the error on unequal device counts
    exactly when the hosts do not all have the same count; when they all
    have the count [c], the command it returns starts with
    [mpirun -np <sum of the counts> -ppn <c> --hostfile <hostfile>]. *)
Theorem mvapich_equal_device_counts p self active_resources st :
  supported MVAPICH (args self) = true ->
  resource_pool self <> [] ->
  (fst (get_cmd MVAPICH p self active_resources st)
   = Raise HeterogeneousResourcePool
   <-> ~ (exists c, forall h n, In (h, n) (resource_pool self) -> n = c))
  /\ (forall c,
        (forall h n, In (h, n) (resource_pool self) -> n = c) ->
        exists rest,
          fst (get_cmd MVAPICH p self active_resources st)
          = Ok ("mpirun" :: "-np"
                :: Py.str_int (Py.sum (Dict.values (resource_pool self)))
                :: "-ppn" :: Py.str_int c
                :: "--hostfile" :: MVAPICH_TMP_HOSTFILE :: rest)).
Proof.
  intros S N.
  destruct (resource_pool self) as [|[h0 n0] pool] eqn:P; [congruence|].
  rewrite (mvapich_get_cmd_supported p self active_resources st h0 n0 pool
             S P).
  rewrite P.
  destruct (forallb (fun n => n =? n0) (Dict.values ((h0, n0) :: pool)))
    eqn:F.
  - pose proof (proj1 (forallb_same_count n0 ((h0, n0) :: pool)) F) as A.
    split.
    + split; [discriminate|]. intros X. exfalso. apply X. now exists n0.
    + intros c C. rewrite (C h0 n0 (or_introl eq_refl)).
      eexists. reflexivity.
  - assert (X : ~ forall h n, In (h, n) ((h0, n0) :: pool) -> n = n0).
    { intros A.
      pose proof (proj2 (forallb_same_count n0 ((h0, n0) :: pool)) A).
      congruence. }
    split.
    + split; [|reflexivity]. intros _ [c C]. apply X. intros h n I.
      rewrite (C h n I). symmetry. apply (C h0 n0). now left.
    + intros c C. exfalso. apply X. intros h n I.
      rewrite (C h n I). symmetry. apply (C h0 n0). now left.
Qed.

(** C7. The PDSH normalizer returns one argument per user argument, in the
    same order: an argument that starts with [-] as it is, any other one
    between single quotes. *)
Theorem pdsh_quotes_positional_arguments a :
  List.length (PDSHRunner.parse_user_args a) = List.length (user_args a)
  /\ (forall i,
        nth_error (PDSHRunner.parse_user_args a) i
        = option_map (fun x => if Py.startswith "-" x then x
                               else "'" ++ x ++ "'")
                     (nth_error (user_args a) i))
  /\ (user_args a = ["--foo"; "bar baz"] ->
      PDSHRunner.parse_user_args a = ["--foo"; "'bar baz'"]).
Proof.
  unfold PDSHRunner.parse_user_args. split; [apply length_map|]. split.
  - intros i. apply nth_error_map.
  - intros E. now rewrite E.
Qed.

Let new := Dispatch.new json_loads json_dumps.
Let parse_user_args := Dispatch.parse_user_args json_loads json_dumps.

(** [add_export] touches the export table only. *)
Lemma add_exports_frame calls self :
  args (add_exports calls self) = args self
  /\ user_arguments (add_exports calls self) = user_arguments self
  /\ runner_user_script (add_exports calls self) = runner_user_script self
  /\ world_info_base64 (add_exports calls self) = world_info_base64 self
  /\ resource_pool (add_exports calls self) = resource_pool self.
Proof.
  unfold add_exports. revert self.
  induction calls as [|[k v] r IH]; intros self; simpl; [tauto|].
  destruct (IH (MultiNodeRunner.add_export k v self)) as (A & B & C & D & E).
  rewrite A, B, C, D, E. simpl. tauto.
Qed.

(** What a constructor stores. *)
Lemma new_fields b a world_info pool r0 :
  new b a world_info pool = Ok r0 ->
  args r0 = a
  /\ runner_user_script r0 = user_script a
  /\ world_info_base64 r0 = world_info
  /\ parse_user_args b a = Ok (user_arguments r0)
  /\ (b = OpenMPI \/ b = Slurm \/ b = MVAPICH -> resource_pool r0 = pool).
Proof.
  unfold new, Dispatch.new, parse_user_args, Dispatch.parse_user_args.
  destruct b; simpl.
  - intros E. injection E as <-. simpl.
    repeat split; auto. intros [H|[H|H]]; discriminate.
  - intros E. injection E as <-. simpl. repeat split; auto.
  - unfold SlurmRunner.init.
    destruct (SlurmRunner.parse_user_args json_loads json_dumps a);
      simpl; [|discriminate].
    intros E. injection E as <-. simpl. repeat split; auto.
  - intros E. injection E as <-. simpl. repeat split; auto.
  - unfold MosaicMLRunner.init.
    destruct (MosaicMLRunner.parse_user_args json_loads json_dumps a);
      simpl; [|discriminate].
    intros E. injection E as <-. simpl.
    repeat split; auto. intros [H|[H|H]]; discriminate.
Qed.

(** Finds the script and the arguments at the end of a command. *)
Ltac split_cmd :=
  intros E; injection E as <-;
  repeat first [apply suffix_here | apply suffix_cons | apply suffix_app].

(** Every command a builder returns ends with the script followed by the
    normalized arguments held by the builder. *)
Lemma get_cmd_suffix b p self active_resources st cmd :
  fst (get_cmd b p self active_resources st) = Ok cmd ->
  exists front,
    cmd = (front ++ runner_user_script self :: user_arguments self)%list.
Proof.
  destruct b; unfold get_cmd, Dispatch.get_cmd.
  - unfold PDSHRunner.get_cmd. run_cmd. split_cmd.
  - unfold OpenMPIRunner.get_cmd. run_cmd.
    repeat match goal with
           | |- context [if ?c then Ok tt else _] => destruct c; run_cmd
           end; try discriminate.
    split_cmd.
  - unfold SlurmRunner.get_cmd. run_cmd.
    destruct (negb (detect_nvlink_pairs (args self))); run_cmd;
      [|discriminate].
    split_cmd.
  - unfold MVAPICHRunner.get_cmd. run_cmd.
    repeat match goal with
           | |- context [if ?c then Ok tt else _] => destruct c; run_cmd
           | |- context [match ?c with [] => _ | _ :: _ => _ end] =>
               destruct c; run_cmd
           end; try discriminate.
    split_cmd.
  - unfold MosaicMLRunner.get_cmd, MosaicMLRunner.environ_item. run_cmd.
    repeat match goal with
           | |- context [match ?c with Some _ => _ | None => _ end] =>
               destruct c; run_cmd
           end; try discriminate.
    split_cmd.
Qed.

(** The result of [get_cmd] depends on the process only through what
    [same_reads] compares. *)
Lemma get_cmd_same_reads b p q self active_resources st :
  same_reads b p q ->
  fst (get_cmd b p self active_resources st)
  = fst (get_cmd b q self active_resources st).
Proof.
  intros [X R]. destruct b; unfold get_cmd, Dispatch.get_cmd.
  - unfold PDSHRunner.get_cmd. run_cmd. now rewrite X, R.
  - unfold OpenMPIRunner.get_cmd. now rewrite X, R.
  - unfold SlurmRunner.get_cmd. now rewrite X.
  - unfold MVAPICHRunner.get_cmd. now rewrite X.
  - destruct R as (R1 & R2 & R3).
    unfold MosaicMLRunner.get_cmd, MosaicMLRunner.environ_item.
    now rewrite X, R1, R2, R3.
Qed.

(** On a supported configuration [get_cmd] returns a command, given a
    non-empty pool of equal device counts for MVAPICH and the three
    variables in [os.environ] for the managed platform. *)
Lemma get_cmd_returns b p self active_resources st :
  supported b (args self) = true ->
  (b = MVAPICH ->
   resource_pool self <> []
   /\ forall h n h' n',
        In (h, n) (resource_pool self) ->
        In (h', n') (resource_pool self) -> n = n') ->
  (b = MosaicML ->
   forall k, In k ["NODE_RANK"; "MASTER_ADDR"; "MASTER_PORT"] ->
             Dict.get k (os_environ p) <> None) ->
  exists cmd, fst (get_cmd b p self active_resources st) = Ok cmd.
Proof.
  intros S HV HM. destruct b.
  - eexists. reflexivity.
  - unfold supported, no_filters in S.
    repeat (apply andb_prop in S; destruct S as [S ?]).
    unfold get_cmd, Dispatch.get_cmd, OpenMPIRunner.get_cmd.
    rewrite S, H, H0, H1, H2. run_cmd. eexists. reflexivity.
  - simpl in S. unfold get_cmd, Dispatch.get_cmd, SlurmRunner.get_cmd.
    rewrite S. run_cmd. eexists. reflexivity.
  - destruct (HV eq_refl) as [N A].
    destruct (resource_pool self) as [|[h0 n0] pool] eqn:P; [congruence|].
    rewrite (mvapich_get_cmd_supported p self active_resources st h0 n0
               pool S P).
    rewrite P.
    rewrite (proj2 (forallb_same_count n0 ((h0, n0) :: pool))).
    + eexists. reflexivity.
    + intros h n I. apply (A h n h0 n0 I). now left.
  - specialize (HM eq_refl).
    unfold get_cmd, Dispatch.get_cmd, MosaicMLRunner.get_cmd,
      MosaicMLRunner.environ_item.
    destruct (Dict.get "NODE_RANK" (os_environ p)) eqn:E1;
      [|exfalso; apply (HM "NODE_RANK"); simpl; auto].
    destruct (Dict.get "MASTER_ADDR" (os_environ p)) eqn:E2;
      [|exfalso; apply (HM "MASTER_ADDR"); simpl; auto].
    destruct (Dict.get "MASTER_PORT" (os_environ p)) eqn:E3;
      [|exfalso; apply (HM "MASTER_PORT"); simpl; auto].
    run_cmd. eexists. reflexivity.
Qed.

(** C1, as the code has it.  For a builder made by its constructor and
    any [add_export] calls, the result of [get_cmd] is fixed by its
    inputs together with the process state the builder reads: the
    interpreter path, and also the working directory (PDSH), whether
    [RUN_MPI_AS_ROOT] is set and non-empty (OpenMPI), or [NODE_RANK],
    [MASTER_ADDR] and [MASTER_PORT] (managed platform).  Every command
    returned ends with the user script followed by the normalized user
    arguments, and a command is returned on every supported configuration
    (for MVAPICH on a non-empty pool of equal counts, for the managed
    platform with its three variables set). *)
Theorem get_cmd_determined_by_inputs_and_reads
    b a world_info pool calls r0 p q active_resources st :
  new b a world_info pool = Ok r0 ->
  same_reads b p q ->
  let self := add_exports calls r0 in
  fst (get_cmd b p self active_resources st)
  = fst (get_cmd b q self active_resources st)
  /\ (forall cmd,
        fst (get_cmd b p self active_resources st) = Ok cmd ->
        exists normalized front,
          parse_user_args b a = Ok normalized
          /\ cmd = (front ++ user_script a :: normalized)%list)
  /\ (supported b a = true ->
      (b = MVAPICH ->
       pool <> []
       /\ forall h n h' n',
            In (h, n) pool -> In (h', n') pool -> n = n') ->
      (b = MosaicML ->
       forall k, In k ["NODE_RANK"; "MASTER_ADDR"; "MASTER_PORT"] ->
                 Dict.get k (os_environ p) <> None) ->
      exists cmd, fst (get_cmd b p self active_resources st) = Ok cmd).
Proof.
  intros N R self.
  destruct (new_fields b a world_info pool r0 N) as (A & B & _ & C & D).
  destruct (add_exports_frame calls r0) as (A' & B' & C' & _ & E').
  fold self in A', B', C', E'.
  split; [now apply get_cmd_same_reads|]. split.
  - intros cmd E. destruct (get_cmd_suffix _ _ _ _ _ _ E) as [front F].
    exists (user_arguments r0), front. split; [exact C|].
    now rewrite F, C', B', B.
  - intros S HV HM. apply get_cmd_returns.
    + now rewrite A', A.
    + intros ->. rewrite E', (D (or_intror (or_intror eq_refl))). auto.
    + exact HM.
Qed.

(** ** The export table *)

Lemma existsb_eqb_In k (l : list string) :
  existsb (String.eqb k) l = true <-> In k l.
Proof.
  rewrite existsb_exists. split.
  - intros (x & I & E). apply String.eqb_eq in E. now subst.
  - intros I. exists k. split; [exact I|apply String.eqb_refl].
Qed.

Lemma keys_set_first_occurrences {V} k (v : V) (d : dict V) :
  Dict.keys (Dict.set k v d)
  = (Dict.keys d ++ first_occurrences (Dict.keys d) [k])%list.
Proof.
  simpl. destruct (existsb (String.eqb k) (Dict.keys d)) eqn:E.
  - apply existsb_eqb_In in E. rewrite keys_set_in by exact E.
    now rewrite app_nil_r.
  - rewrite set_notin.
    + unfold Dict.keys. now rewrite map_app.
    + intros I. apply existsb_eqb_In in I. congruence.
Qed.

(** The keys after a sequence of calls: the old ones, then the new ones
    in the order of their first insertion. *)
Lemma keys_add_exports calls self :
  Dict.keys (exports (add_exports calls self))
  = (Dict.keys (exports self)
     ++ first_occurrences (Dict.keys (exports self))
          (map (fun c => Py.strip (fst c)) calls))%list.
Proof.
  unfold add_exports. revert self.
  induction calls as [|[k v] r IH]; intros self; simpl.
  - now rewrite app_nil_r.
  - rewrite IH. cbn [exports MultiNodeRunner.add_export].
    rewrite keys_set_first_occurrences. simpl.
    destruct (existsb (String.eqb (Py.strip k)) (Dict.keys (exports self))).
    + now rewrite app_nil_r.
    + now rewrite <- app_assoc.
Qed.

(** The value under a key after a sequence of calls: the one inserted
    last, or the old one when no call inserted the key. *)
Lemma get_add_exports calls self k :
  Dict.get k (exports (add_exports calls self))
  = match last_inserted k calls with
    | Some w => Some w
    | None => Dict.get k (exports self)
    end.
Proof.
  unfold add_exports. revert self.
  induction calls as [|[k' v'] r IH]; intros self; simpl; [reflexivity|].
  rewrite IH. destruct (last_inserted k r); [reflexivity|].
  cbn [exports MultiNodeRunner.add_export].
  destruct (String.eqb k (Py.strip k')) eqn:E.
  - apply String.eqb_eq in E. subst k. apply get_set_same.
  - apply String.eqb_neq in E. now apply get_set_other.
Qed.

Lemma first_occurrences_fresh seen ks k :
  In k (first_occurrences seen ks) -> ~ In k seen.
Proof.
  revert seen. induction ks as [|k0 r IH]; intros seen; simpl; [tauto|].
  destruct (existsb (String.eqb k0) seen) eqn:E; [apply IH|].
  intros [->|I].
  - intros I. apply existsb_eqb_In in I. congruence.
  - intros S. apply (IH _ I). apply in_or_app. now left.
Qed.

(** C6. [add_export key var] stores the trimmed [var] under the trimmed
    [key]: trimming removes white space at both ends only; a key already
    in the table keeps its place and takes the new value, a new key goes
    to the end, and no other entry changes.  After any sequence of calls
    the keys are in the order of their first insertion, each with the
    value inserted last.  Every builder renders its propagation flags by
    going through the table in that order; with [NCCL_DEBUG=INFO] added
    after its default, OpenMPI renders
    [-x UCX_TLS=tcp -x NCCL_DEBUG=INFO]. *)
Theorem add_export_trims_and_keeps_insertion_order key var self :
  let self' := MultiNodeRunner.add_export key var self in
  (exists l r l' r',
     key = l ++ Py.strip key ++ r /\ var = l' ++ Py.strip var ++ r'
     /\ all_space l = true /\ all_space r = true
     /\ all_space l' = true /\ all_space r' = true
     /\ leading_space (Py.strip key) = false
     /\ trailing_space (Py.strip key) = false
     /\ leading_space (Py.strip var) = false
     /\ trailing_space (Py.strip var) = false)
  /\ Dict.get (Py.strip key) (exports self') = Some (Py.strip var)
  /\ (forall k, k <> Py.strip key ->
        Dict.get k (exports self') = Dict.get k (exports self))
  /\ (In (Py.strip key) (Dict.keys (exports self)) ->
      Dict.keys (exports self') = Dict.keys (exports self))
  /\ (~ In (Py.strip key) (Dict.keys (exports self)) ->
      exports self'
      = (exports self ++ [(Py.strip key, Py.strip var)])%list)
  /\ (forall calls,
        Dict.keys (exports (add_exports calls self))
        = (Dict.keys (exports self)
           ++ first_occurrences (Dict.keys (exports self))
                (map (fun c => Py.strip (fst c)) calls))%list
        /\ forall k,
             Dict.get k (exports (add_exports calls self))
             = match last_inserted k calls with
               | Some w => Some w
               | None => Dict.get k (exports self)
               end)
  /\ OpenMPIRunner.export_cmd (exports self)
     = flat_map (fun kv => ["-x"; fst kv ++ "=" ++ snd kv]) (exports self)
  /\ MVAPICHRunner.export_cmd (exports self)
     = flat_map (fun kv => ["-env"; fst kv ++ "=" ++ snd kv]) (exports self)
  /\ PDSHRunner.render_exports (exports self)
     = fold_right (fun kv rest =>
                     ("export " ++ fst kv ++ "=" ++ snd kv ++ "; ") ++ rest)
                  "" (exports self)
  /\ SlurmRunner.render_exports (exports self)
     = "--export=ALL"
       ++ fold_right (fun kv rest =>
                        ("," ++ fst kv ++ "=" ++ snd kv) ++ rest)
                     "" (exports self)
  /\ (forall p active_resources st cmd,
        fst (get_cmd OpenMPI p self active_resources st) = Ok cmd ->
        exists front,
          cmd = (front
                 ++ flat_map
                      (fun kv => ["-x"; (fst kv ++ "=" ++ snd kv)%string])
                      (exports self)
                 ++ [sys_executable p; "-u"; runner_user_script self]
                 ++ user_arguments self)%list)
  /\ (forall a world_info pool,
        OpenMPIRunner.export_cmd
          (exports (MultiNodeRunner.add_export "NCCL_DEBUG" "INFO"
                      (OpenMPIRunner.init a world_info pool)))
        = ["-x"; "UCX_TLS=tcp"; "-x"; "NCCL_DEBUG=INFO"]).
Proof.
  intros self'. split.
  { destruct (strip_spec key) as (l & r & E & A & B & C & D).
    destruct (strip_spec var) as (l' & r' & E' & A' & B' & C' & D').
    exists l, r, l', r'. tauto. }
  split; [apply get_set_same|].
  split; [intros k N; now apply get_set_other|].
  split; [apply keys_set_in|].
  split; [apply set_notin|].
  split; [intros calls; split;
          [apply keys_add_exports|intros k; apply get_add_exports]|].
  split; [apply (fold_left_app_flat_map
                   (fun kv => ["-x"; fst kv ++ "=" ++ snd kv]))|].
  split; [apply (fold_left_app_flat_map
                   (fun kv => ["-env"; fst kv ++ "=" ++ snd kv]))|].
  split; [apply (fold_left_append
                   (fun kv => "export " ++ fst kv ++ "=" ++ snd kv ++ "; "))
         |].
  split; [apply (fold_left_append
                   (fun kv => "," ++ fst kv ++ "=" ++ snd kv))|].
  split; [|reflexivity].
  intros p active_resources st cmd.
  unfold get_cmd, Dispatch.get_cmd, OpenMPIRunner.get_cmd. run_cmd.
  repeat match goal with
         | |- context [if ?c then Ok tt else _] => destruct c; run_cmd
         end; try discriminate.
  intros E. injection E as <-. unfold OpenMPIRunner.export_cmd.
  rewrite (fold_left_app_flat_map
             (fun kv => ["-x"; fst kv ++ "=" ++ snd kv]) (exports self)).
  eexists. reflexivity.
Qed.

Lemma firstn_length_app {A} (l1 l2 : list A) :
  firstn (List.length l1) (l1 ++ l2) = l1.
Proof. induction l1; simpl; congruence. Qed.

Lemma skipn_length_app {A} (l1 l2 : list A) :
  skipn (List.length l1) (l1 ++ l2) = l2.
Proof. induction l1; simpl; congruence. Qed.

(** Calls of [add_export] leave the entries that were there in front, key
    by key, and put the keys they add behind them. *)
Lemma old_entries_in_front calls self :
  exists front back,
    exports (add_exports calls self) = (front ++ back)%list
    /\ Dict.keys front = Dict.keys (exports self)
    /\ forall k, In k (Dict.keys back) ->
                 ~ In k (Dict.keys (exports self)).
Proof.
  pose proof (keys_add_exports calls self) as K.
  set (final := exports (add_exports calls self)) in *.
  set (n := List.length (Dict.keys (exports self))).
  exists (firstn n final), (skipn n final).
  split; [symmetry; apply firstn_skipn|]. unfold Dict.keys in *. split.
  - rewrite <- firstn_map, K. apply firstn_length_app.
  - intros k. rewrite <- skipn_map, K. unfold n.
    rewrite skipn_length_app. apply first_occurrences_fresh.
Qed.

(** C10, as the code has it.  Right after construction the OpenMPI table
    holds [UCX_TLS=tcp] and the MVAPICH table its seven defaults, in the
    order of the constructor.  After any sequence of [add_export] calls
    the default keys still come first in that order, ahead of every key
    the calls added, and the flags are rendered in the order of the table;
    a default key carries its default value unless a call re-added the
    key, in which case it carries the value of the last such call. *)
Theorem default_exports_stay_in_front a world_info pool calls :
  exports (OpenMPIRunner.init a world_info pool) = openmpi_defaults
  /\ exports (MVAPICHRunner.init a world_info pool) = mvapich_defaults
  /\ forall r0 defaults flags,
       (r0 = OpenMPIRunner.init a world_info pool
        /\ defaults = openmpi_defaults
        /\ flags = OpenMPIRunner.export_cmd)
       \/ (r0 = MVAPICHRunner.init a world_info pool
           /\ defaults = mvapich_defaults
           /\ flags = MVAPICHRunner.export_cmd) ->
       exists front back,
         exports (add_exports calls r0) = (front ++ back)%list
         /\ Dict.keys front = Dict.keys defaults
         /\ (forall k, In k (Dict.keys back) ->
                       ~ In k (Dict.keys defaults))
         /\ (forall k v,
               In (k, v) defaults ->
               Dict.get k (exports (add_exports calls r0))
               = Some (match last_inserted k calls with
                       | Some w => w
                       | None => v
                       end))
         /\ flags (exports (add_exports calls r0))
            = (flags front ++ flags back)%list.
Proof.
  split; [reflexivity|]. split; [reflexivity|].
  intros r0 defaults flags H.
  assert (D : exports r0 = defaults)
    by (destruct H as [(-> & -> & _)|(-> & -> & _)]; reflexivity).
  assert (G : forall k v, In (k, v) defaults ->
                          Dict.get k defaults = Some v).
  { intros k v I.
    destruct H as [(_ & -> & _)|(_ & -> & _)]; simpl in I;
      repeat (destruct I as [I|I]; [injection I as <- <-; reflexivity|]);
      contradiction. }
  assert (F : forall d1 d2 : dict string,
              flags (d1 ++ d2)%list = (flags d1 ++ flags d2)%list).
  { intros d1 d2.
    destruct H as [(_ & _ & ->)|(_ & _ & ->)];
      [unfold OpenMPIRunner.export_cmd|unfold MVAPICHRunner.export_cmd];
      rewrite !fold_left_app_flat_map; simpl; apply flat_map_app. }
  destruct (old_entries_in_front calls r0) as (front & back & E & K & N).
  rewrite D in K, N. exists front, back.
  split; [exact E|]. split; [exact K|]. split; [exact N|]. split.
  - intros k v I. rewrite get_add_exports, D, (G k v I).
    now destruct (last_inserted k calls).
  - rewrite E. apply F.
Qed.

(** ** The JSON rewrite *)

Section Rewrite.
Variable msg : string.

Let rewrite_arg := JsonArgs.rewrite_arg json_loads json_dumps msg.
Let normalize := JsonArgs.parse_user_args json_loads json_dumps msg.

(** The loop of [parse_user_args], started with [acc] in [user_args]. *)
Let loop (acc l : list string) : result (list string) :=
  foldM (fun user_args arg =>
           arg' <- JsonArgs.rewrite_arg json_loads json_dumps msg arg ;;
           Ok (user_args ++ [arg'])%list)
        acc l.

Lemma loop_ok l : forall acc out,
  loop acc l = Ok out
  <-> exists ys, out = (acc ++ ys)%list
                 /\ Forall2 (fun x y => rewrite_arg x = Ok y) l ys.
Proof.
  unfold loop, rewrite_arg.
  induction l as [|x r IH]; intros acc out; simpl.
  - split.
    + intros E. injection E as <-. exists []. rewrite app_nil_r. auto.
    + intros (ys & -> & F). inversion F. now rewrite app_nil_r.
  - destruct (JsonArgs.rewrite_arg json_loads json_dumps msg x) as [y|e]
      eqn:E; simpl.
    + rewrite IH. split.
      * intros (ys & -> & F). exists (y :: ys). rewrite <- app_assoc.
        split; [reflexivity|]. constructor; auto.
      * intros (ys & -> & F). inversion F as [|? y' ? ys' E' F']; subst.
        assert (y' = y) by congruence. subst y'.
        exists ys'. rewrite <- app_assoc. auto.
    + split; [discriminate|].
      intros (ys & _ & F). inversion F; congruence.
Qed.

Lemma loop_raise l : forall acc e,
  loop acc l = Raise e ->
  exists arg, In arg l /\ rewrite_arg arg = Raise e.
Proof.
  unfold loop, rewrite_arg.
  induction l as [|x r IH]; intros acc e; simpl; [discriminate|].
  destruct (JsonArgs.rewrite_arg json_loads json_dumps msg x) as [y|e']
    eqn:E; simpl.
  - intros H. destruct (IH _ _ H) as (arg & I & R). eauto.
  - intros H. injection H as <-. eauto.
Qed.

Lemma loop_first_raise pre arg post e : forall acc,
  Forall (fun x => exists y, rewrite_arg x = Ok y) pre ->
  rewrite_arg arg = Raise e ->
  loop acc (pre ++ arg :: post) = Raise e.
Proof.
  unfold loop, rewrite_arg.
  induction pre as [|x r IH]; intros acc F R; simpl.
  - now rewrite R.
  - inversion F as [|? ? [y Y] F']; subst. rewrite Y. simpl.
    now apply IH.
Qed.

Lemma rewrite_unshaped arg :
  JsonArgs.json_shaped arg = false -> rewrite_arg arg = Ok arg.
Proof.
  intros S. unfold rewrite_arg, JsonArgs.rewrite_arg. now rewrite S.
Qed.

Lemma rewrite_raise_shaped arg e :
  rewrite_arg arg = Raise e -> JsonArgs.json_shaped arg = true.
Proof.
  unfold rewrite_arg, JsonArgs.rewrite_arg.
  destruct (JsonArgs.json_shaped arg); [reflexivity|discriminate].
Qed.

(** The loop over the items of [config_files] on keys that are all
    different: each value is replaced by what it decodes to. *)
Lemma parse_config_files_ok items parsed :
  Forall2 (fun kv kw =>
             fst kw = fst kv
             /\ exists s, snd kv = PStr s /\ json_loads s = Ok (snd kw))
          items parsed ->
  forall acc,
    NoDup (Dict.keys items) ->
    (forall k, In k (Dict.keys items) -> ~ In k (Dict.keys acc)) ->
    foldM (fun config_files kv =>
             w <- JsonArgs.loads_value json_loads (snd kv) ;;
             Ok (Dict.set (fst kv) w config_files))
          acc items
    = Ok (acc ++ parsed)%list.
Proof.
  induction 1 as [|[k v] [k' w] r r' (K & s & V & L) F IH];
    intros acc N D; simpl.
  - now rewrite app_nil_r.
  - simpl in K, V, L. subst k' v. simpl. rewrite L. simpl.
    simpl in N. inversion N as [|? ? NI N']; subst.
    rewrite set_notin by (apply D; simpl; auto).
    rewrite IH; [now rewrite <- app_assoc|exact N'|].
    intros x I. unfold Dict.keys. rewrite map_app, in_app_iff. simpl.
    intros [X|[X|[]]].
    + apply (D x); simpl; auto.
    + subst x. contradiction.
Qed.

(** C4. An argument that starts with an opening and ends with a closing
    brace and that [json.loads] rejects makes the normalizer raise a
    [ValueError] with the builder's message (plain json, no comments,
    lowercase trues), raised from that decode error; the normalizer
    raises the error of the first argument that fails.  An argument
    without that shape is returned as it is, so every error of the
    normalizer comes from an argument with that shape. *)
Theorem malformed_json_is_invalid_user_config :
  msg = SlurmRunner.message \/ msg = MosaicMLRunner.message ->
  (forall arg m,
     JsonArgs.json_shaped arg = true ->
     json_loads arg = Raise (JSONDecodeError m) ->
     rewrite_arg arg = Raise (ValueError msg (JSONDecodeError m))
     /\ InvalidUserConfig (ValueError msg (JSONDecodeError m)) = true)
  /\ (forall a pre arg post e,
        user_args a = (pre ++ arg :: post)%list ->
        Forall (fun x => exists y, rewrite_arg x = Ok y) pre ->
        rewrite_arg arg = Raise e ->
        normalize a = Raise e)
  /\ (forall arg,
        JsonArgs.json_shaped arg = false -> rewrite_arg arg = Ok arg)
  /\ (forall a e,
        normalize a = Raise e ->
        exists arg, In arg (user_args a)
                    /\ JsonArgs.json_shaped arg = true
                    /\ rewrite_arg arg = Raise e)
  /\ SlurmRunner.parse_user_args json_loads json_dumps
     = JsonArgs.parse_user_args json_loads json_dumps SlurmRunner.message
  /\ MosaicMLRunner.parse_user_args json_loads json_dumps
     = JsonArgs.parse_user_args json_loads json_dumps
         MosaicMLRunner.message.
Proof.
  intros M. split.
  { intros arg m S L. split.
    - unfold rewrite_arg, JsonArgs.rewrite_arg, JsonArgs.try_block.
      rewrite S, L. reflexivity.
    - destruct M as [-> | ->]; reflexivity. }
  split.
  { intros a pre arg post e U F R.
    unfold normalize, JsonArgs.parse_user_args. rewrite U.
    now apply (loop_first_raise pre arg post e []). }
  split; [exact rewrite_unshaped|]. split; [|split; reflexivity].
  intros a e H. destruct (loop_raise _ _ _ H) as (arg & I & R).
  exists arg. split; [exact I|]. split; [|exact R].
  now apply (rewrite_raise_shaped arg e).
Qed.

(** C5. An argument of the JSON shape that decodes to an object with a
    [config_files] object whose values are strings that decode is
    replaced by the serialization, with the separators [,] and [:], of
    the same object with every value of [config_files] replaced by what
    it decodes to: the keys of the object and every other value are
    unchanged.  Without a [config_files] key the object itself is
    serialized that way.  An argument without the shape is returned as
    it is, and the normalizer returns the rewritten arguments in the
    order of the arguments. *)
Theorem json_rewrite_parses_config_files :
  (forall arg d items parsed,
     JsonArgs.json_shaped arg = true ->
     json_loads arg = Ok (PDict d) ->
     Dict.get "config_files" d = Some (PDict items) ->
     NoDup (Dict.keys items) ->
     Forall2 (fun kv kw =>
                fst kw = fst kv
                /\ exists s, snd kv = PStr s
                             /\ json_loads s = Ok (snd kw))
             items parsed ->
     let d' := Dict.set "config_files" (PDict parsed) d in
     rewrite_arg arg = Ok (json_dumps (PDict d') "," ":")
     /\ Dict.keys d' = Dict.keys d
     /\ Dict.get "config_files" d' = Some (PDict parsed)
     /\ forall k, k <> "config_files" -> Dict.get k d' = Dict.get k d)
  /\ (forall arg d,
        JsonArgs.json_shaped arg = true ->
        json_loads arg = Ok (PDict d) ->
        Dict.get "config_files" d = None ->
        rewrite_arg arg = Ok (json_dumps (PDict d) "," ":"))
  /\ (forall arg,
        JsonArgs.json_shaped arg = false -> rewrite_arg arg = Ok arg)
  /\ (forall a out,
        normalize a = Ok out
        <-> Forall2 (fun x y => rewrite_arg x = Ok y) (user_args a) out).
Proof.
  split.
  { intros arg d items parsed S L G N F d'.
    assert (I : In "config_files" (Dict.keys d)).
    { apply mem_keys. unfold Dict.mem. now rewrite G. }
    split; [|split; [now apply keys_set_in|split;
             [apply get_set_same|intros k K; now apply get_set_other]]].
    unfold rewrite_arg, JsonArgs.rewrite_arg, JsonArgs.try_block.
    rewrite S, L. cbn [bind result_monad JsonArgs.contains_key].
    unfold Dict.mem. rewrite G.
    cbn [JsonArgs.get_items]. rewrite G.
    unfold JsonArgs.parse_config_files.
    rewrite (parse_config_files_ok items parsed F []); auto. }
  split.
  { intros arg d S L G.
    unfold rewrite_arg, JsonArgs.rewrite_arg, JsonArgs.try_block.
    rewrite S, L. cbn [bind result_monad JsonArgs.contains_key].
    unfold Dict.mem. now rewrite G. }
  split; [exact rewrite_unshaped|].
  intros a out. unfold normalize, JsonArgs.parse_user_args.
  fold (loop [] (user_args a)). rewrite loop_ok. split.
  - now intros (ys & -> & F).
  - intros F. now exists out.
Qed.
End Rewrite.

End Builders.

(** ** The properties on the example launch *)

Module Checks.
Import Example.

(** The two calls of [PDSHRunner.get_cmd] below get the same configuration,
    world info, exports, environment mapping and active resources, and so do
    the two calls of [OpenMPIRunner.get_cmd]; the commands differ, with the
    working directory of the process in the first pair and with
    [RUN_MPI_AS_ROOT] of [os.environ] in the second. *)
Lemma get_cmd_depends_on_process_state :
  fst (get_cmd PDSH proc (PDSHRunner.init cfg "WI") active store)
  <> fst (get_cmd PDSH proc_elsewhere (PDSHRunner.init cfg "WI") active store)
  /\ fst (get_cmd OpenMPI proc (OpenMPIRunner.init cfg "WI" pool_equal)
            active store)
     <> fst (get_cmd OpenMPI proc_root
               (OpenMPIRunner.init cfg "WI" pool_equal) active store).
Proof. split; vm_compute; intros H; discriminate H. Qed.

Lemma get_cmd_determined_witness :
  new Slurm cfg "WI" pool_equal
  = Ok (MultiNodeRunner.with_resource_pool pool_equal
          (MultiNodeRunner.init cfg ["--foo"; "bar baz"] "WI"))
  /\ same_reads Slurm proc proc_root
  /\ fst (get_cmd Slurm proc
            (add_exports [("NCCL_DEBUG", "INFO")]
               (MultiNodeRunner.with_resource_pool pool_equal
                  (MultiNodeRunner.init cfg ["--foo"; "bar baz"] "WI")))
            active store)
     = fst (get_cmd Slurm proc_root
              (add_exports [("NCCL_DEBUG", "INFO")]
                 (MultiNodeRunner.with_resource_pool pool_equal
                    (MultiNodeRunner.init cfg ["--foo"; "bar baz"] "WI")))
              active store).
Proof.
  assert (N : new Slurm cfg "WI" pool_equal
              = Ok (MultiNodeRunner.with_resource_pool pool_equal
                      (MultiNodeRunner.init cfg ["--foo"; "bar baz"] "WI")))
    by reflexivity.
  assert (R : same_reads Slurm proc proc_root) by (split; reflexivity).
  split; [exact N|]. split; [exact R|].
  exact (proj1 (get_cmd_determined_by_inputs_and_reads
                  PDSH_MAX_FAN_OUT MVAPICH_TMP_HOSTFILE
                  RefJson.json_loads RefJson.json_dumps
                  Slurm cfg "WI" pool_equal [("NCCL_DEBUG", "INFO")] _
                  proc proc_root active store N R)).
Defined.

Lemma nvlink_pairs_unsupported_witness :
  detect_nvlink_pairs cfg_nvlink = true
  /\ exists e,
       UnsupportedConfiguration e = true
       /\ get_cmd MVAPICH proc (MVAPICHRunner.init cfg_nvlink "WI" pool_equal)
            active store
          = (Raise e, store).
Proof.
  split; [reflexivity|].
  apply (nvlink_pairs_unsupported PDSH_MAX_FAN_OUT MVAPICH_TMP_HOSTFILE
           MVAPICH proc (MVAPICHRunner.init cfg_nvlink "WI" pool_equal)).
  - reflexivity.
  - right. right. reflexivity.
Defined.

Lemma filters_unsupported_witness :
  include cfg_include <> ""
  /\ exists e,
       UnsupportedConfiguration e = true
       /\ get_cmd OpenMPI proc (OpenMPIRunner.init cfg_include "WI" pool_equal)
            active store
          = (Raise e, store).
Proof.
  assert (I : include cfg_include <> "") by (simpl; discriminate).
  split; [exact I|].
  apply (filters_unsupported PDSH_MAX_FAN_OUT MVAPICH_TMP_HOSTFILE
           OpenMPI proc (OpenMPIRunner.init cfg_include "WI" pool_equal)).
  - left. exact I.
  - left. reflexivity.
Defined.

Lemma mvapich_equal_device_counts_witness :
  supported MVAPICH cfg = true
  /\ pool_equal <> []
  /\ exists rest,
       fst (get_cmd MVAPICH proc (MVAPICHRunner.init cfg "WI" pool_equal)
              active store)
       = Ok ("mpirun" :: "-np" :: "8" :: "-ppn" :: "4"
             :: "--hostfile" :: MVAPICH_TMP_HOSTFILE :: rest).
Proof.
  assert (S : supported MVAPICH cfg = true) by reflexivity.
  assert (N : pool_equal <> []) by discriminate.
  split; [exact S|]. split; [exact N|].
  apply (proj2 (mvapich_equal_device_counts PDSH_MAX_FAN_OUT
                  MVAPICH_TMP_HOSTFILE proc
                  (MVAPICHRunner.init cfg "WI" pool_equal) active store S N)
               4).
  intros h n [E|[E|[]]]; injection E as _ <-; reflexivity.
Defined.

(** The pool of the specification with unequal counts. *)
Example mvapich_unequal_pool_raises :
  get_cmd MVAPICH proc (MVAPICHRunner.init cfg "WI" pool_unequal) active store
  = (Raise HeterogeneousResourcePool, store).
Proof. reflexivity. Qed.

(** With equal counts the hostfile lists the hosts, one per line. *)
Example mvapich_writes_hostfile :
  files (snd (get_cmd MVAPICH proc (MVAPICHRunner.init cfg "WI" pool_equal)
                active store))
  = [(MVAPICH_TMP_HOSTFILE, "h1" ++ Py.LF ++ "h2" ++ Py.LF)].
Proof. reflexivity. Qed.

Lemma pdsh_quotes_witness :
  user_args cfg = ["--foo"; "bar baz"]
  /\ PDSHRunner.parse_user_args cfg = ["--foo"; "'bar baz'"].
Proof.
  split; [reflexivity|].
  apply (proj2 (proj2 (pdsh_quotes_positional_arguments cfg))). reflexivity.
Defined.

Lemma only_pdsh_writes_environment_witness :
  environment (snd (get_cmd PDSH proc (PDSHRunner.init cfg "WI") active store))
  = [("PATH", "/usr/bin"); ("PDSH_RCMD_TYPE", "ssh")]
  /\ (OpenMPI <> PDSH ->
      environment (snd (get_cmd OpenMPI proc
                          (OpenMPIRunner.init cfg "WI" pool_equal)
                          active store))
      = [("PATH", "/usr/bin")]).
Proof.
  pose proof (only_pdsh_writes_environment PDSH_MAX_FAN_OUT
                MVAPICH_TMP_HOSTFILE proc (PDSHRunner.init cfg "WI")
                active store) as (E & _).
  pose proof (only_pdsh_writes_environment PDSH_MAX_FAN_OUT
                MVAPICH_TMP_HOSTFILE proc
                (OpenMPIRunner.init cfg "WI" pool_equal)
                active store) as (_ & _ & _ & O).
  split.
  - fold get_cmd in E. rewrite E. reflexivity.
  - intros N. exact (O OpenMPI N).
Defined.

Lemma add_export_witness :
  Dict.get "NCCL_DEBUG"
    (exports (MultiNodeRunner.add_export " NCCL_DEBUG" "INFO "
                (OpenMPIRunner.init cfg "WI" pool_equal)))
  = Some "INFO"
  /\ (~ In "NCCL_DEBUG"
        (Dict.keys (exports (OpenMPIRunner.init cfg "WI" pool_equal))) ->
      exports (MultiNodeRunner.add_export " NCCL_DEBUG" "INFO "
                 (OpenMPIRunner.init cfg "WI" pool_equal))
      = [("UCX_TLS", "tcp"); ("NCCL_DEBUG", "INFO")])
  /\ OpenMPIRunner.export_cmd
       (exports (MultiNodeRunner.add_export "NCCL_DEBUG" "INFO"
                   (OpenMPIRunner.init cfg "WI" pool_equal)))
     = ["-x"; "UCX_TLS=tcp"; "-x"; "NCCL_DEBUG=INFO"].
Proof.
  pose proof (add_export_trims_and_keeps_insertion_order PDSH_MAX_FAN_OUT
                MVAPICH_TMP_HOSTFILE " NCCL_DEBUG" "INFO "
                (OpenMPIRunner.init cfg "WI" pool_equal))
    as (_ & G & _ & _ & A & _ & _ & _ & _ & _ & _ & X).
  split; [exact G|]. split; [exact A|]. exact (X cfg "WI" pool_equal).
Defined.

(** A caller that adds [UCX_TLS] itself replaces the default value: the
    command then carries the caller's value and no flag [UCX_TLS=tcp]. *)
Lemma default_export_value_overwritten :
  exists cmd,
    fst (get_cmd OpenMPI proc
           (add_exports [("UCX_TLS", "rc")]
              (OpenMPIRunner.init cfg "WI" pool_equal))
           active store)
    = Ok cmd
    /\ In "UCX_TLS=rc" cmd
    /\ ~ In "UCX_TLS=tcp" cmd.
Proof.
  eexists. split; [reflexivity|]. split.
  - simpl. tauto.
  - simpl. intros H.
    repeat (destruct H as [H|H]; [discriminate H|]). exact H.
Qed.

Lemma default_exports_witness :
  (OpenMPIRunner.init cfg "WI" pool_equal
   = OpenMPIRunner.init cfg "WI" pool_equal
   /\ openmpi_defaults = openmpi_defaults
   /\ OpenMPIRunner.export_cmd = OpenMPIRunner.export_cmd)
  /\ exists front back,
       exports (add_exports [("NCCL_DEBUG", "INFO"); ("UCX_TLS", "rc")]
                  (OpenMPIRunner.init cfg "WI" pool_equal))
       = (front ++ back)%list
       /\ Dict.keys front = ["UCX_TLS"]
       /\ Dict.get "UCX_TLS"
            (exports (add_exports [("NCCL_DEBUG", "INFO"); ("UCX_TLS", "rc")]
                        (OpenMPIRunner.init cfg "WI" pool_equal)))
          = Some "rc".
Proof.
  split; [repeat split|].
  destruct (proj2 (proj2 (default_exports_stay_in_front cfg "WI" pool_equal
                            [("NCCL_DEBUG", "INFO"); ("UCX_TLS", "rc")]))
              (OpenMPIRunner.init cfg "WI" pool_equal) openmpi_defaults
              OpenMPIRunner.export_cmd
              (or_introl (conj eq_refl (conj eq_refl eq_refl))))
    as (front & back & E & K & _ & G & _).
  exists front, back. split; [exact E|]. split; [exact K|].
  exact (G "UCX_TLS" "tcp" (or_introl eq_refl)).
Defined.

Lemma malformed_json_witness :
  (SlurmRunner.message = SlurmRunner.message
   \/ SlurmRunner.message = MosaicMLRunner.message)
  /\ JsonArgs.json_shaped "{bad}" = true
  /\ RefJson.json_loads "{bad}"
     = Raise (JSONDecodeError
                "Expecting property name enclosed in double quotes")
  /\ JsonArgs.rewrite_arg RefJson.json_loads RefJson.json_dumps
       SlurmRunner.message "{bad}"
     = Raise (ValueError SlurmRunner.message
                (JSONDecodeError
                   "Expecting property name enclosed in double quotes"))
  /\ SlurmRunner.parse_user_args RefJson.json_loads RefJson.json_dumps
       (with_user_args ["--config"; "{bad}"; "last"] cfg)
     = Raise (ValueError SlurmRunner.message
                (JSONDecodeError
                   "Expecting property name enclosed in double quotes")).
Proof.
  assert (M : SlurmRunner.message = SlurmRunner.message
              \/ SlurmRunner.message = MosaicMLRunner.message)
    by (left; reflexivity).
  assert (S : JsonArgs.json_shaped "{bad}" = true) by reflexivity.
  assert (L : RefJson.json_loads "{bad}"
              = Raise (JSONDecodeError
                         "Expecting property name enclosed in double quotes"))
    by reflexivity.
  pose proof (malformed_json_is_invalid_user_config RefJson.json_loads
                RefJson.json_dumps SlurmRunner.message M)
    as (A & B & _).
  destruct (A "{bad}" _ S L) as [R _].
  split; [exact M|]. split; [exact S|]. split; [exact L|].
  split; [exact R|].
  apply (B (with_user_args ["--config"; "{bad}"; "last"] cfg)
           ["--config"] "{bad}" ["last"]).
  - reflexivity.
  - constructor; [|constructor]. exists "--config". reflexivity.
  - exact R.
Defined.

Lemma json_rewrite_witness :
  JsonArgs.json_shaped config_arg = true
  /\ RefJson.json_loads config_arg
     = Ok (PDict [("config_files",
                   PDict [("a", PStr (Py.dq "{`x`: true}"))])])
  /\ RefJson.json_loads (Py.dq "{`x`: true}")
     = Ok (PDict [("x", PBool true)])
  /\ JsonArgs.rewrite_arg RefJson.json_loads RefJson.json_dumps
       SlurmRunner.message config_arg
     = Ok config_arg_compact.
Proof.
  assert (S : JsonArgs.json_shaped config_arg = true) by reflexivity.
  assert (L : RefJson.json_loads config_arg
              = Ok (PDict [("config_files",
                            PDict [("a", PStr (Py.dq "{`x`: true}"))])]))
    by reflexivity.
  assert (L' : RefJson.json_loads (Py.dq "{`x`: true}")
               = Ok (PDict [("x", PBool true)])) by reflexivity.
  split; [exact S|]. split; [exact L|]. split; [exact L'|].
  refine (proj1 (proj1 (json_rewrite_parses_config_files RefJson.json_loads
                          RefJson.json_dumps SlurmRunner.message)
                   config_arg _ [("a", PStr (Py.dq "{`x`: true}"))]
                   [("a", PDict [("x", PBool true)])] S L eq_refl _ _)).
  - repeat constructor. simpl. tauto.
  - constructor; [|constructor]. split; [reflexivity|].
    eexists. split; [reflexivity|exact L'].
Defined.

(** The normalizers on the arguments of the example launch. *)
Example slurm_normalizes_in_order :
  SlurmRunner.parse_user_args RefJson.json_loads RefJson.json_dumps
    (with_user_args ["--deepspeed_config"; config_arg; "{}"; "x"] cfg)
  = Ok ["--deepspeed_config"; config_arg_compact; "{}"; "x"].
Proof. reflexivity. Qed.

Example mosaicml_get_cmd :
  fst (get_cmd MosaicML proc
         (MultiNodeRunner.init cfg ["--foo"; "bar baz"] "WI") active store)
  = Ok ["/usr/bin/python3"; "-u"; "-m"; "deepspeed.launcher.launch";
        "--world_info=WI"; "--node_rank=0"; "--master_addr=10.0.0.1";
        "--master_port=29500"; "train.py"; "--foo"; "bar baz"].
Proof. reflexivity. Qed.

End Checks.

(** * Further properties of the builders *)

From Stdlib Require Import Permutation.

(** ** What [get_cmd] does to the store *)

Lemma set_set_same {V} k (v : V) (d : dict V) :
  Dict.set k v (Dict.set k v d) = Dict.set k v d.
Proof.
  induction d as [|[k0 v0] r IH]; simpl.
  - now rewrite String.eqb_refl.
  - destruct (String.eqb k k0) eqn:E; simpl; rewrite E; congruence.
Qed.

Lemma sum_from (l : list Z) : forall acc, fold_left Z.add l acc = acc + Py.sum l.
Proof.
  unfold Py.sum. induction l as [|x r IH]; intros acc; simpl.
  - lia.
  - rewrite IH, (IH x). lia.
Qed.

Lemma sum_cons (x : Z) (l : list Z) : Py.sum (x :: l) = x + Py.sum l.
Proof. unfold Py.sum at 1. simpl. apply sum_from. Qed.

Lemma sum_constant (c : Z) (l : list Z) :
  (forall n, In n l -> n = c) -> Py.sum l = c * Z.of_nat (List.length l).
Proof.
  induction l as [|x r IH]; intros H.
  - unfold Py.sum. simpl. lia.
  - rewrite sum_cons, IH by (intros n I; apply H; now right).
    rewrite (H x (or_introl eq_refl)). simpl List.length. lia.
Qed.

Lemma sum_permutation (l1 l2 : list Z) :
  Permutation l1 l2 -> Py.sum l1 = Py.sum l2.
Proof.
  induction 1 as [|x l l' _ IH|x y l|l l' l'' _ IH1 _ IH2].
  - reflexivity.
  - now rewrite !sum_cons, IH.
  - rewrite !sum_cons. lia.
  - congruence.
Qed.

Section Effects.
Variable PDSH_MAX_FAN_OUT : Z.
Variable MVAPICH_TMP_HOSTFILE : string.

Let get_cmd := Dispatch.get_cmd PDSH_MAX_FAN_OUT MVAPICH_TMP_HOSTFILE.

Implicit Types (p : Process) (self : Runner) (st : Store)
         (active_resources : dict (list Z)).

(** Destructs the tests of a [get_cmd] body one after the other. *)
Ltac branches :=
  repeat match goal with
         | |- context [if ?c then Ok tt else _] => destruct c; run_cmd
         | |- context [match ?c with [] => _ | _ :: _ => _ end] =>
             destruct c; run_cmd
         | |- context [match ?c with Some _ => _ | None => _ end] =>
             destruct c; run_cmd
         end.

(** [MVAPICHRunner.get_cmd], result and store, once the capability
    assertions have passed on a pool whose first host has [n0] devices. *)
Lemma mvapich_run_supported p self active_resources st h0 n0 pool :
  supported MVAPICH (args self) = true ->
  resource_pool self = (h0, n0) :: pool ->
  get_cmd MVAPICH p self active_resources st
  = if forallb (fun n => n =? n0) (Dict.values (resource_pool self))
    then (Ok (["mpirun"; "-np";
               Py.str_int (Py.sum (Dict.values (resource_pool self)));
               "-ppn"; Py.str_int n0;
               "--hostfile"; MVAPICH_TMP_HOSTFILE]
              ++ MVAPICHRunner.export_cmd (exports self)
              ++ [sys_executable p; "-u"]
              ++ [runner_user_script self] ++ user_arguments self)%list,
          {| environment := environment st;
             files := Dict.set MVAPICH_TMP_HOSTFILE
                        (MVAPICHRunner.hostfile_text (resource_pool self))
                        (files st) |})
    else (Raise HeterogeneousResourcePool, st).
Proof.
  unfold supported, no_filters. intros H P.
  apply andb_prop in H. destruct H as [H D].
  apply andb_prop in H. destruct H as [H G].
  apply andb_prop in H. destruct H as [H N].
  apply andb_prop in H. destruct H as [I X].
  unfold get_cmd, Dispatch.get_cmd, MVAPICHRunner.get_cmd.
  rewrite I, X, N, G, D, P. run_cmd. cbn [andb Dict.values map].
  run_cmd.
  destruct (forallb (fun n => n =? n0) (n0 :: map snd pool)); reflexivity.
Qed.

Lemma same_counts_forallb (n0 : Z) (pool : dict Z) :
  (forall h n, In (h, n) pool -> n = n0) ->
  forallb (fun n => n =? n0) (Dict.values pool) = true.
Proof.
  intros H. unfold Dict.values. apply forallb_forall. intros n I.
  apply in_map_iff in I. destruct I as ([h n'] & E & I). simpl in E.
  subst n'. apply Z.eqb_eq. exact (H h n I).
Qed.

(** X1. When the MVAPICH builder returns a command it has written the
    hostfile: afterwards the file at the fixed path holds the hosts of the
    resource pool, in the order of the pool, each followed by a line feed;
    every other file and the environment mapping are as before. *)
Theorem mvapich_hostfile_lists_the_pool p self active_resources st :
  supported MVAPICH (args self) = true ->
  resource_pool self <> [] ->
  (forall h n h' n',
     In (h, n) (resource_pool self) -> In (h', n') (resource_pool self) ->
     n = n') ->
  let st' := snd (get_cmd MVAPICH p self active_resources st) in
  environment st' = environment st
  /\ Dict.get MVAPICH_TMP_HOSTFILE (files st')
     = Some (fold_right (fun host rest => (host ++ Py.LF) ++ rest) ""
               (Dict.keys (resource_pool self)))
  /\ forall path, path <> MVAPICH_TMP_HOSTFILE ->
                  Dict.get path (files st') = Dict.get path (files st).
Proof.
  intros S N A.
  destruct (resource_pool self) as [|[h0 n0] pool] eqn:P; [congruence|].
  intros st'. unfold st'.
  rewrite (mvapich_run_supported p self active_resources st h0 n0 pool S P).
  rewrite P, same_counts_forallb
    by (intros h n I; apply (A h n h0 n0 I); now left).
  cbn [snd environment files]. split; [reflexivity|]. split.
  - rewrite get_set_same. f_equal. unfold MVAPICHRunner.hostfile_text.
    apply (fold_left_append (fun host => host ++ Py.LF)).
  - intros path D. now apply get_set_other.
Qed.

(** X2. A [get_cmd] that raises has changed nothing, for every builder but
    PDSH, which never raises; and no builder but MVAPICH ever writes a
    file. *)
Theorem failed_get_cmd_changes_nothing p self active_resources st :
  (forall b e,
     b <> PDSH ->
     fst (get_cmd b p self active_resources st) = Raise e ->
     snd (get_cmd b p self active_resources st) = st)
  /\ (forall b,
        b <> MVAPICH ->
        files (snd (get_cmd b p self active_resources st)) = files st)
  /\ (forall e, fst (get_cmd PDSH p self active_resources st) <> Raise e).
Proof.
  split; [|split].
  - intros b e N. destruct b; [contradiction| | | |];
      unfold get_cmd, Dispatch.get_cmd.
    + unfold OpenMPIRunner.get_cmd. run_cmd. branches;
        (reflexivity || discriminate).
    + unfold SlurmRunner.get_cmd. run_cmd. branches;
        (reflexivity || discriminate).
    + unfold MVAPICHRunner.get_cmd. run_cmd. branches;
        (reflexivity || discriminate).
    + unfold MosaicMLRunner.get_cmd, MosaicMLRunner.environ_item. run_cmd.
      branches; (reflexivity || discriminate).
  - intros b N. destruct b; [| | |contradiction|];
      unfold get_cmd, Dispatch.get_cmd.
    + reflexivity.
    + unfold OpenMPIRunner.get_cmd. run_cmd. branches; reflexivity.
    + unfold SlurmRunner.get_cmd. run_cmd. branches; reflexivity.
    + unfold MosaicMLRunner.get_cmd, MosaicMLRunner.environ_item. run_cmd.
      branches; reflexivity.
  - intros e. unfold get_cmd, Dispatch.get_cmd, PDSHRunner.get_cmd. run_cmd.
    discriminate.
Qed.

(** X3. On an empty resource pool the MVAPICH builder raises [IndexError]
    (it reads the first device count before anything else) and writes
    nothing, while the Slurm and the OpenMPI builder return a command for
    zero processes. *)
Theorem empty_pool_behaviour p self active_resources st :
  supported MVAPICH (args self) = true ->
  resource_pool self = [] ->
  get_cmd MVAPICH p self active_resources st = (Raise IndexError, st)
  /\ (exists rest,
        fst (get_cmd Slurm p self active_resources st)
        = Ok ("srun" :: "-n" :: "0" :: rest))
  /\ (exists rest,
        fst (get_cmd OpenMPI p self active_resources st)
        = Ok ("mpirun"
              :: (if OpenMPIRunner.allow_run_as_root p
                  then ["--allow-run-as-root"] else [])
              ++ "-n" :: "0" :: rest)%list).
Proof.
  unfold supported, no_filters. intros H P.
  apply andb_prop in H. destruct H as [H D].
  apply andb_prop in H. destruct H as [H G].
  apply andb_prop in H. destruct H as [H N].
  apply andb_prop in H. destruct H as [I X].
  unfold get_cmd, Dispatch.get_cmd. split; [|split].
  - unfold MVAPICHRunner.get_cmd. rewrite I, X, N, G, D, P. reflexivity.
  - unfold SlurmRunner.get_cmd. rewrite D, P. run_cmd.
    cbn [Dict.values map]. change (Py.str_int (Py.sum [])) with "0".
    repeat match goal with
           | |- context [if ?c then (_ ++ _)%list else _] => destruct c
           end; eexists; reflexivity.
  - unfold OpenMPIRunner.get_cmd. rewrite I, X, N, G, D, P. run_cmd.
    cbn [Dict.values map]. change (Py.str_int (Py.sum [])) with "0".
    destruct (OpenMPIRunner.allow_run_as_root p); eexists; reflexivity.
Qed.

(** X4. Calling [get_cmd] a second time, on the store the first call left,
    gives the same result and leaves that store as it is: the PDSH builder
    sets the same key again and the MVAPICH builder overwrites the same
    file with the same text. *)
Theorem get_cmd_twice b p self active_resources st :
  get_cmd b p self active_resources
    (snd (get_cmd b p self active_resources st))
  = get_cmd b p self active_resources st.
Proof.
  destruct b; unfold get_cmd, Dispatch.get_cmd.
  - unfold PDSHRunner.get_cmd. run_cmd. cbn [environment files].
    now rewrite set_set_same.
  - unfold OpenMPIRunner.get_cmd. run_cmd. branches; reflexivity.
  - unfold SlurmRunner.get_cmd. run_cmd. branches; reflexivity.
  - unfold MVAPICHRunner.get_cmd. run_cmd. branches; try reflexivity.
    cbn [environment files]. now rewrite set_set_same.
  - unfold MosaicMLRunner.get_cmd, MosaicMLRunner.environ_item. run_cmd.
    branches; reflexivity.
Qed.

(** X5. When the MVAPICH builder returns a command for a pool whose hosts
    all have [c] devices, the process count after [-np] is [c] times the
    number of hosts and the count after [-ppn] is [c]. *)
Theorem mvapich_np_is_ppn_times_hosts p self active_resources st c :
  supported MVAPICH (args self) = true ->
  resource_pool self <> [] ->
  (forall h n, In (h, n) (resource_pool self) -> n = c) ->
  exists rest,
    fst (get_cmd MVAPICH p self active_resources st)
    = Ok ("mpirun" :: "-np"
          :: Py.str_int (c * Z.of_nat (List.length (resource_pool self)))
          :: "-ppn" :: Py.str_int c
          :: "--hostfile" :: MVAPICH_TMP_HOSTFILE :: rest).
Proof.
  intros S N A.
  destruct (resource_pool self) as [|[h0 n0] pool] eqn:P; [congruence|].
  assert (E0 : n0 = c) by (apply (A h0 n0); now left). subst n0.
  rewrite (mvapich_run_supported p self active_resources st h0 c pool S P).
  rewrite P, same_counts_forallb by exact A.
  rewrite (sum_constant c (Dict.values ((h0, c) :: pool))).
  - unfold Dict.values. rewrite length_map. eexists. reflexivity.
  - intros n I. unfold Dict.values in I. apply in_map_iff in I.
    destruct I as ([h n'] & E & I). simpl in E. subst n'. exact (A h n I).
Qed.

(** X6. The OpenMPI and the Slurm builder use the resource pool only
    through the sum of its device counts: a pool with the same entries in
    another order gives the same command. *)
Theorem pool_order_is_irrelevant b p self active_resources st pool1 pool2 :
  b = OpenMPI \/ b = Slurm ->
  Permutation pool1 pool2 ->
  get_cmd b p (MultiNodeRunner.with_resource_pool pool1 self)
    active_resources st
  = get_cmd b p (MultiNodeRunner.with_resource_pool pool2 self)
      active_resources st.
Proof.
  intros B Q.
  assert (E : Py.sum (Dict.values pool1) = Py.sum (Dict.values pool2)).
  { apply sum_permutation. unfold Dict.values. now apply Permutation_map. }
  destruct B; subst b; unfold get_cmd, Dispatch.get_cmd.
  - unfold OpenMPIRunner.get_cmd.
    cbn [MultiNodeRunner.with_resource_pool args exports resource_pool
         runner_user_script user_arguments].
    now rewrite E.
  - unfold SlurmRunner.get_cmd.
    cbn [MultiNodeRunner.with_resource_pool args exports resource_pool
         runner_user_script user_arguments].
    now rewrite E.
Qed.

End Effects.

(** ** What each builder reads *)

Section Reads.
Variable PDSH_MAX_FAN_OUT : Z.
Variable MVAPICH_TMP_HOSTFILE : string.

Let get_cmd := Dispatch.get_cmd PDSH_MAX_FAN_OUT MVAPICH_TMP_HOSTFILE.

Implicit Types (p : Process) (self : Runner) (st : Store)
         (active_resources : dict (list Z)).

(** X7. The Slurm builder passes [--nodes] and [--gpus] for positive
    limits only: every limit that is zero or negative gives the command of
    the unlimited launch (where the OpenMPI and the MVAPICH builder reject
    every limit other than -1), and a positive [num_nodes] appears as
    [--nodes] followed by the number. *)
Theorem slurm_passes_positive_limits_only p self active_resources st :
  (forall nodes gpus,
     nodes <= 0 -> gpus <= 0 ->
     get_cmd Slurm p (with_args (with_counts nodes gpus (args self)) self)
       active_resources st
     = get_cmd Slurm p (with_args (with_counts (-1) (-1) (args self)) self)
         active_resources st)
  /\ (forall nodes gpus,
        0 < nodes ->
        detect_nvlink_pairs (args self) = false ->
        exists front rest,
          fst (get_cmd Slurm p
                 (with_args (with_counts nodes gpus (args self)) self)
                 active_resources st)
          = Ok (front ++ "--nodes" :: Py.str_int nodes :: rest)%list).
Proof.
  split.
  - intros nodes gpus N G.
    unfold get_cmd, Dispatch.get_cmd, SlurmRunner.get_cmd.
    cbn [with_args with_counts args num_nodes num_gpus include exclude
         comment detect_nvlink_pairs exports resource_pool
         runner_user_script user_arguments].
    replace (0 <? nodes) with false by (symmetry; apply Z.ltb_ge; lia).
    replace (0 <? gpus) with false by (symmetry; apply Z.ltb_ge; lia).
    reflexivity.
  - intros nodes gpus N D.
    unfold get_cmd, Dispatch.get_cmd, SlurmRunner.get_cmd.
    cbn [with_args with_counts args num_nodes num_gpus include exclude
         comment detect_nvlink_pairs exports resource_pool
         runner_user_script user_arguments].
    rewrite D. run_cmd.
    replace (0 <? nodes) with true by (symmetry; apply Z.ltb_lt; lia).
    match goal with
    | |- context [(?X ++ ["--nodes"; _])%list] => exists X
    end.
    destruct (0 <? gpus); eexists; rewrite <- !app_assoc; reflexivity.
Qed.

(** X8. The capability assertions of the OpenMPI and of the MVAPICH builder
    are checked in a fixed order, so the message names the first check
    that fails: host filters before count limits, count limits before
    NVLink detection.  For NVLink detection the MVAPICH builder raises the
    message of the OpenMPI builder. *)
Theorem capability_errors_in_order b name p self active_resources st :
  (b = OpenMPI /\ name = "openmpi") \/ (b = MVAPICH /\ name = "mvapich") ->
  (include (args self) <> "" \/ exclude (args self) <> "" ->
   get_cmd b p self active_resources st
   = (Raise (AssertionError
               (name ++ " backend does not support worker include/exclusion")),
      st))
  /\ (include (args self) = "" -> exclude (args self) = "" ->
      num_nodes (args self) <> -1 \/ num_gpus (args self) <> -1 ->
      get_cmd b p self active_resources st
      = (Raise (AssertionError
                  (name ++ " backend does not support limiting num nodes/gpus")),
         st))
  /\ (no_filters (args self) = true ->
      detect_nvlink_pairs (args self) = true ->
      get_cmd b p self active_resources st
      = (Raise (AssertionError
                  "openmpi backend does not support remapping visible devices"),
         st)).
Proof.
  intros B.
  assert (F1 : include (args self) <> "" \/ exclude (args self) <> "" ->
               String.eqb (include (args self)) ""
               && String.eqb (exclude (args self)) "" = false).
  { intros H. apply not_true_is_false. intros T.
    apply andb_prop in T. destruct T as [I X].
    apply String.eqb_eq in I. apply String.eqb_eq in X.
    destruct H as [H|H]; now apply H. }
  assert (F2 : num_nodes (args self) <> -1 \/ num_gpus (args self) <> -1 ->
               (num_nodes (args self) =? -1) && (num_gpus (args self) =? -1)
               = false).
  { intros H. apply not_true_is_false. intros T.
    apply andb_prop in T. destruct T as [N G].
    apply Z.eqb_eq in N. apply Z.eqb_eq in G.
    destruct H as [H|H]; now apply H. }
  split; [|split].
  - intros H. specialize (F1 H).
    destruct B as [[-> ->]|[-> ->]]; unfold get_cmd, Dispatch.get_cmd;
      [unfold OpenMPIRunner.get_cmd|unfold MVAPICHRunner.get_cmd];
      rewrite F1; reflexivity.
  - intros I X H. specialize (F2 H).
    destruct B as [[-> ->]|[-> ->]]; unfold get_cmd, Dispatch.get_cmd;
      [unfold OpenMPIRunner.get_cmd|unfold MVAPICHRunner.get_cmd];
      rewrite I, X, F2; reflexivity.
  - unfold no_filters. intros H D.
    apply andb_prop in H. destruct H as [H G].
    apply andb_prop in H. destruct H as [H N].
    apply andb_prop in H. destruct H as [I X].
    destruct B as [[-> ->]|[-> ->]]; unfold get_cmd, Dispatch.get_cmd;
      [unfold OpenMPIRunner.get_cmd|unfold MVAPICHRunner.get_cmd];
      rewrite I, X, N, G, D; reflexivity.
Qed.

(** X9. The managed-platform builder needs [NODE_RANK], [MASTER_ADDR] and
    [MASTER_PORT] in [os.environ]: it raises [KeyError] for the first of
    them, in this order, that is missing, and with all three set it
    returns the launcher command built from their values. *)
Theorem mosaicml_needs_three_variables p self active_resources st :
  (Dict.get "NODE_RANK" (os_environ p) = None ->
   get_cmd MosaicML p self active_resources st
   = (Raise (KeyError "NODE_RANK"), st))
  /\ (Dict.get "NODE_RANK" (os_environ p) <> None ->
      Dict.get "MASTER_ADDR" (os_environ p) = None ->
      get_cmd MosaicML p self active_resources st
      = (Raise (KeyError "MASTER_ADDR"), st))
  /\ (Dict.get "NODE_RANK" (os_environ p) <> None ->
      Dict.get "MASTER_ADDR" (os_environ p) <> None ->
      Dict.get "MASTER_PORT" (os_environ p) = None ->
      get_cmd MosaicML p self active_resources st
      = (Raise (KeyError "MASTER_PORT"), st))
  /\ (forall rank addr port,
        Dict.get "NODE_RANK" (os_environ p) = Some rank ->
        Dict.get "MASTER_ADDR" (os_environ p) = Some addr ->
        Dict.get "MASTER_PORT" (os_environ p) = Some port ->
        get_cmd MosaicML p self active_resources st
        = (Ok ([sys_executable p; "-u"; "-m"; "deepspeed.launcher.launch";
                ("--world_info=" ++ world_info_base64 self)%string;
                ("--node_rank=" ++ rank)%string;
                ("--master_addr=" ++ addr)%string;
                ("--master_port=" ++ port)%string]
               ++ runner_user_script self :: user_arguments self)%list,
           st)).
Proof.
  unfold get_cmd, Dispatch.get_cmd, MosaicMLRunner.get_cmd,
    MosaicMLRunner.environ_item.
  split; [|split; [|split]].
  - intros R. now rewrite R.
  - intros R A. rewrite A.
    destruct (Dict.get "NODE_RANK" (os_environ p)); [reflexivity|].
    now contradiction R.
  - intros R A Q. rewrite Q.
    destruct (Dict.get "NODE_RANK" (os_environ p));
      [|now contradiction R].
    destruct (Dict.get "MASTER_ADDR" (os_environ p));
      [reflexivity|now contradiction A].
  - intros rank addr port R A Q. now rewrite R, A, Q.
Qed.

(** X10. The managed-platform builder reads nothing of the builder but the
    script, the normalized arguments and the world info: the export table,
    the configuration (its master address and port included) and the
    active resources have no effect on the command, so exports added with
    [add_export] are dropped. *)
Theorem mosaicml_drops_exports p self self' active_resources
    active_resources' st :
  (runner_user_script self = runner_user_script self' ->
   user_arguments self = user_arguments self' ->
   world_info_base64 self = world_info_base64 self' ->
   get_cmd MosaicML p self active_resources st
   = get_cmd MosaicML p self' active_resources' st)
  /\ (forall calls,
        get_cmd MosaicML p (add_exports calls self) active_resources st
        = get_cmd MosaicML p self active_resources st).
Proof.
  assert (G : forall r r' ar ar',
            runner_user_script r = runner_user_script r' ->
            user_arguments r = user_arguments r' ->
            world_info_base64 r = world_info_base64 r' ->
            get_cmd MosaicML p r ar st = get_cmd MosaicML p r' ar' st).
  { intros r r' ar ar' S U W.
    unfold get_cmd, Dispatch.get_cmd, MosaicMLRunner.get_cmd.
    now rewrite S, U, W. }
  split; [apply G|].
  intros calls.
  destruct (add_exports_frame calls self) as (_ & U & S & W & _).
  now apply G.
Qed.

(** X11. The OpenMPI, Slurm and MVAPICH builders read neither the world
    info, nor the master address and port, nor the active resources: two
    builders that agree on the other fields give the same result. *)
Theorem mpi_builders_ignore_world_info b p self self' active_resources
    active_resources' st :
  b = OpenMPI \/ b = Slurm \/ b = MVAPICH ->
  hostfile (args self) = hostfile (args self') ->
  include (args self) = include (args self') ->
  exclude (args self) = exclude (args self') ->
  num_nodes (args self) = num_nodes (args self') ->
  num_gpus (args self) = num_gpus (args self') ->
  detect_nvlink_pairs (args self) = detect_nvlink_pairs (args self') ->
  comment (args self) = comment (args self') ->
  runner_user_script self = runner_user_script self' ->
  user_arguments self = user_arguments self' ->
  exports self = exports self' ->
  resource_pool self = resource_pool self' ->
  get_cmd b p self active_resources st
  = get_cmd b p self' active_resources' st.
Proof.
  intros B H I X N G D C S U E R.
  destruct B as [->|[->| ->]]; unfold get_cmd, Dispatch.get_cmd.
  - unfold OpenMPIRunner.get_cmd. now rewrite H, I, X, N, G, D, S, U, E, R.
  - unfold SlurmRunner.get_cmd. now rewrite I, X, N, G, D, C, S, U, E, R.
  - unfold MVAPICHRunner.get_cmd. now rewrite I, X, N, G, D, S, U, E, R.
Qed.

(** X12. The PDSH builder reads the active resources through their host
    names only, and nothing of the resource pool, the hostfile, the
    filters or the count limits: the device lists of the hosts have no
    effect on the command. *)
Theorem pdsh_reads_host_names_only p self self' active_resources
    active_resources' st :
  Dict.keys active_resources = Dict.keys active_resources' ->
  master_addr (args self) = master_addr (args self') ->
  master_port (args self) = master_port (args self') ->
  detect_nvlink_pairs (args self) = detect_nvlink_pairs (args self') ->
  runner_user_script self = runner_user_script self' ->
  user_arguments self = user_arguments self' ->
  world_info_base64 self = world_info_base64 self' ->
  exports self = exports self' ->
  get_cmd PDSH p self active_resources st
  = get_cmd PDSH p self' active_resources' st.
Proof.
  intros K A Q D S U W E.
  unfold get_cmd, Dispatch.get_cmd, PDSHRunner.get_cmd.
  now rewrite K, A, Q, D, S, U, W, E.
Qed.

(** X13. The OpenMPI builder adds [--allow-run-as-root] right after
    [mpirun] exactly when [RUN_MPI_AS_ROOT] is set to a non-empty text in
    [os.environ], whatever the text (['0'] and ['false'] included); the
    rest of the command is the one built without the variable. *)
Theorem openmpi_allow_run_as_root p q self active_resources st :
  (OpenMPIRunner.allow_run_as_root p = true
   <-> exists v, Dict.get "RUN_MPI_AS_ROOT" (os_environ p) = Some v
                 /\ v <> "")
  /\ (supported OpenMPI (args self) = true ->
      sys_executable p = sys_executable q ->
      OpenMPIRunner.allow_run_as_root p = true ->
      OpenMPIRunner.allow_run_as_root q = false ->
      exists rest,
        fst (get_cmd OpenMPI q self active_resources st)
        = Ok ("mpirun" :: rest)
        /\ fst (get_cmd OpenMPI p self active_resources st)
           = Ok ("mpirun" :: "--allow-run-as-root" :: rest)).
Proof.
  split.
  - unfold OpenMPIRunner.allow_run_as_root.
    destruct (Dict.get "RUN_MPI_AS_ROOT" (os_environ p)) as [v|].
    + split.
      * intros H. exists v. split; [reflexivity|].
        intros ->. discriminate H.
      * intros (w & E & N). injection E as <-.
        apply negb_true_iff. now apply String.eqb_neq.
    + split; [discriminate|]. intros (w & E & _). discriminate E.
  - unfold supported, no_filters. intros H X P Q.
    apply andb_prop in H. destruct H as [H D].
    apply andb_prop in H. destruct H as [H G].
    apply andb_prop in H. destruct H as [H N].
    apply andb_prop in H. destruct H as [I E].
    unfold get_cmd, Dispatch.get_cmd, OpenMPIRunner.get_cmd.
    rewrite I, E, N, G, D, P, Q, X. run_cmd.
    eexists. split; reflexivity.
Qed.

End Reads.

(** ** The export table, continued *)

Lemma lstrip_fixed s : leading_space s = false -> Py.lstrip s = s.
Proof. destruct s as [|c r]; simpl; [reflexivity|]. now intros ->. Qed.

Lemma rstrip_fixed s : trailing_space s = false -> Py.rstrip s = s.
Proof.
  induction s as [|c r IH]; [reflexivity|].
  destruct r as [|c' r'].
  - simpl. now intros ->.
  - intros T. change (trailing_space (String c' r') = false) in T.
    change (Py.rstrip (String c (String c' r')))
      with (match Py.rstrip (String c' r') with
            | EmptyString =>
                if Py.isspace c then EmptyString else String c EmptyString
            | r0 => String c r0
            end).
    now rewrite (IH T).
Qed.

Lemma strip_fixed s :
  leading_space s = false -> trailing_space s = false -> Py.strip s = s.
Proof.
  intros L T. unfold Py.strip. rewrite (lstrip_fixed s L).
  now apply rstrip_fixed.
Qed.

Lemma strip_idempotent s : Py.strip (Py.strip s) = Py.strip s.
Proof.
  destruct (strip_spec s) as (l & r & _ & _ & _ & L & T).
  now apply strip_fixed.
Qed.

(** An entry of a table after a write: an old entry, or the written one. *)
Lemma in_set {V} k (v : V) (d : dict V) k' v' :
  In (k', v') (Dict.set k v d) -> In (k', v') d \/ (k' = k /\ v' = v).
Proof.
  induction d as [|[k0 v0] r IH]; simpl.
  - intros [E|[]]. injection E as <- <-. auto.
  - destruct (String.eqb k k0) eqn:E.
    + apply String.eqb_eq in E. subst k0.
      intros [X|I]; [injection X as <- <-|]; auto.
    + intros [X|I]; [auto|]. destruct (IH I); auto.
Qed.

Lemma nodup_keys_set {V} k (v : V) (d : dict V) :
  NoDup (Dict.keys d) -> NoDup (Dict.keys (Dict.set k v d)).
Proof.
  intros N. destruct (in_dec string_dec k (Dict.keys d)) as [I|I].
  - now rewrite keys_set_in.
  - rewrite set_notin by exact I. unfold Dict.keys. rewrite map_app.
    simpl. apply NoDup_app; [exact N|repeat constructor; intros []|].
    intros x X [<-|[]]. now apply I.
Qed.

Lemma add_export_invariant key var self :
  NoDup (Dict.keys (exports self)) /\ trimmed_table (exports self) ->
  NoDup (Dict.keys (exports (MultiNodeRunner.add_export key var self)))
  /\ trimmed_table (exports (MultiNodeRunner.add_export key var self)).
Proof.
  intros [N T]. cbn [MultiNodeRunner.add_export exports]. split.
  - now apply nodup_keys_set.
  - intros k v I. apply in_set in I. destruct I as [I|[-> ->]].
    + now apply T.
    + destruct (strip_spec key) as (? & ? & _ & _ & _ & L & R).
      destruct (strip_spec var) as (? & ? & _ & _ & _ & L' & R').
      auto.
Qed.

Section Table.
Variable json_loads : string -> result pyval.
Variable json_dumps : pyval -> string -> string -> string.

(** X14. [add_export] is idempotent, and it stores what it would store for
    the trimmed key and value; two keys that differ in surrounding white
    space only are one entry, which keeps its place and takes the later
    value. *)
Theorem add_export_idempotent key var self :
  MultiNodeRunner.add_export key var
    (MultiNodeRunner.add_export key var self)
  = MultiNodeRunner.add_export key var self
  /\ MultiNodeRunner.add_export (Py.strip key) (Py.strip var) self
     = MultiNodeRunner.add_export key var self
  /\ (forall key' var',
        Py.strip key' = Py.strip key ->
        Dict.keys (exports (MultiNodeRunner.add_export key' var'
                              (MultiNodeRunner.add_export key var self)))
        = Dict.keys (exports (MultiNodeRunner.add_export key var self))
        /\ Dict.get (Py.strip key)
             (exports (MultiNodeRunner.add_export key' var'
                         (MultiNodeRunner.add_export key var self)))
           = Some (Py.strip var')).
Proof.
  split; [|split].
  - unfold MultiNodeRunner.add_export. cbn [exports args user_arguments
      runner_user_script world_info_base64 resource_pool].
    now rewrite set_set_same.
  - unfold MultiNodeRunner.add_export. now rewrite !strip_idempotent.
  - intros key' var' E. cbn [MultiNodeRunner.add_export exports].
    rewrite E. split; [|apply get_set_same].
    apply keys_set_in. apply mem_keys. unfold Dict.mem.
    now rewrite get_set_same.
Qed.

(** X15. The export table of a builder, from its constructor on and after
    any sequence of [add_export] calls, has no key twice, and every key and
    every value in it is free of white space at both ends. *)
Theorem export_table_invariant b a world_info pool r0 calls :
  Dispatch.new json_loads json_dumps b a world_info pool = Ok r0 ->
  NoDup (Dict.keys (exports (add_exports calls r0)))
  /\ forall k v,
       In (k, v) (exports (add_exports calls r0)) ->
       leading_space k = false /\ trailing_space k = false
       /\ leading_space v = false /\ trailing_space v = false.
Proof.
  intros N.
  assert (I0 : NoDup (Dict.keys (exports r0)) /\ trimmed_table (exports r0)).
  { assert (Z0 : NoDup (Dict.keys (@nil (string * string)))
                 /\ trimmed_table []) by (split; [constructor|intros ? ? []]).
    unfold Dispatch.new in N. destruct b.
    - injection N as <-. exact Z0.
    - injection N as <-. unfold OpenMPIRunner.init.
      apply add_export_invariant. exact Z0.
    - unfold SlurmRunner.init in N.
      destruct (SlurmRunner.parse_user_args json_loads json_dumps a);
        [|discriminate N].
      cbn [bind result_monad] in N. injection N as <-. exact Z0.
    - injection N as <-. unfold MVAPICHRunner.init.
      repeat apply add_export_invariant. exact Z0.
    - unfold MosaicMLRunner.init in N.
      destruct (MosaicMLRunner.parse_user_args json_loads json_dumps a);
        [|discriminate N].
      cbn [bind result_monad] in N. injection N as <-. exact Z0. }
  clear N. unfold add_exports. revert r0 I0.
  induction calls as [|[k v] r IH]; intros r0 I0; simpl.
  - exact I0.
  - apply IH. now apply add_export_invariant.
Qed.

End Table.

(** ** The normalizers, continued *)

Lemma substring_prefix (x t : string) :
  String.substring 0 (String.length x) (x ++ t) = x.
Proof.
  induction x as [|c r IH]; simpl.
  - now destruct t.
  - now rewrite IH.
Qed.

Lemma length_append (x t : string) :
  String.length (x ++ t) = (String.length x + String.length t)%nat.
Proof. induction x; simpl; congruence. Qed.

Lemma endswith_append (c : ascii) (x : string) :
  Py.endswith c (x ++ String c EmptyString) = true.
Proof.
  induction x as [|a r IH]; simpl.
  - apply Ascii.eqb_refl.
  - destruct (r ++ String c EmptyString) eqn:E; [|exact IH].
    destruct r; discriminate E.
Qed.

(** X16. Every argument the PDSH normalizer returns comes from a user
    argument: it is that argument, which then starts with [-], or it is
    that argument between two single quotes, with nothing escaped, so that
    the text between the first and the last character is the argument
    again. *)
Theorem pdsh_normalized_arguments a y :
  In y (PDSHRunner.parse_user_args a) ->
  exists x,
    In x (user_args a)
    /\ ((Py.startswith "-" x = true /\ y = x)
        \/ (Py.startswith "-" x = false
            /\ y = "'" ++ x ++ "'"
            /\ Py.startswith "'" y = true
            /\ Py.endswith "'" y = true
            /\ String.length y = (String.length x + 2)%nat
            /\ inner y = x)).
Proof.
  unfold PDSHRunner.parse_user_args. intros I. apply in_map_iff in I.
  destruct I as (x & E & I). exists x. split; [exact I|].
  unfold PDSHRunner.quote in E.
  destruct (Py.startswith "-" x); [left; auto|right].
  subst y. split; [reflexivity|]. split; [reflexivity|].
  split; [reflexivity|].
  assert (L : String.length ("'" ++ x ++ "'") = (String.length x + 2)%nat).
  { simpl. rewrite length_append. simpl. lia. }
  split; [|split; [exact L|]].
  - change ("'" ++ x ++ "'") with (String "'" (x ++ "'")).
    change (Py.endswith "'" (String "'" (x ++ "'")))
      with (match x ++ "'" with
            | EmptyString => Ascii.eqb "'" "'"
            | String _ _ => Py.endswith "'" (x ++ "'")
            end).
    destruct (x ++ "'") eqn:E; [reflexivity|].
    rewrite <- E. apply endswith_append.
  - unfold inner. rewrite L.
    replace (String.length x + 2 - 2)%nat with (String.length x) by lia.
    simpl. apply substring_prefix.
Qed.

Section RewriteErrors.
Variable json_loads : string -> result pyval.
Variable json_dumps : pyval -> string -> string -> string.
Variable msg : string.

Let rewrite_arg := JsonArgs.rewrite_arg json_loads json_dumps msg.
Let normalize := JsonArgs.parse_user_args json_loads json_dumps msg.

(** The loop over the items stops at the first value that fails. *)
Lemma parse_config_files_raise pre k v post e :
  Forall (fun kv => exists s w, snd kv = PStr s /\ json_loads s = Ok w) pre ->
  JsonArgs.loads_value json_loads v = Raise e ->
  forall acc,
    foldM (fun config_files kv =>
             w <- JsonArgs.loads_value json_loads (snd kv) ;;
             Ok (Dict.set (fst kv) w config_files))
          acc (pre ++ (k, v) :: post)
    = Raise e.
Proof.
  intros F R. induction F as [|[k0 v0] r (s & w & V & L) F IH];
    intros acc; simpl.
  - now rewrite R.
  - simpl in V. subst v0. simpl. rewrite L. simpl. apply IH.
Qed.

(** X17. Besides the [ValueError] for an argument that does not decode, the
    JSON rewrite raises, for an argument that decodes to an object:
    [AttributeError] when [config_files] is not an object, [TypeError] at
    the first value of [config_files] that is not a string, and the
    [ValueError] of the builder, raised from the decode error, at the
    first value that is a string but does not decode.  Only the last is
    the error the builder's message describes. *)
Theorem json_rewrite_other_errors arg d :
  JsonArgs.json_shaped arg = true ->
  json_loads arg = Ok (PDict d) ->
  (forall v,
     Dict.get "config_files" d = Some v ->
     not_dict v = true ->
     rewrite_arg arg = Raise AttributeError)
  /\ (forall pre k v post,
        Dict.get "config_files" d = Some (PDict (pre ++ (k, v) :: post)) ->
        Forall (fun kv => exists s w,
                            snd kv = PStr s /\ json_loads s = Ok w) pre ->
        (not_str v = true -> rewrite_arg arg = Raise TypeError)
        /\ (forall s m,
              v = PStr s ->
              json_loads s = Raise (JSONDecodeError m) ->
              rewrite_arg arg = Raise (ValueError msg (JSONDecodeError m)))).
Proof.
  intros S L.
  assert (U : forall v,
            Dict.get "config_files" d = Some v ->
            rewrite_arg arg
            = match (items <- JsonArgs.get_items "config_files" (PDict d) ;;
                     config_files <-
                       JsonArgs.parse_config_files json_loads items ;;
                     JsonArgs.set_item "config_files" (PDict config_files)
                       (PDict d)) with
              | Ok arg_dict => Ok (json_dumps arg_dict "," ":")
              | Raise (JSONDecodeError m) =>
                  Raise (ValueError msg (JSONDecodeError m))
              | Raise e => Raise e
              end).
  { intros v G.
    unfold rewrite_arg, JsonArgs.rewrite_arg, JsonArgs.try_block.
    rewrite S, L. cbn [bind result_monad JsonArgs.contains_key].
    unfold Dict.mem. now rewrite G. }
  split.
  - intros v G N. rewrite (U v G). cbn [JsonArgs.get_items]. rewrite G.
    destruct v; try discriminate N; reflexivity.
  - intros pre k v post G F. rewrite (U _ G).
    cbn [JsonArgs.get_items]. rewrite G. cbn [bind result_monad].
    unfold JsonArgs.parse_config_files. split.
    + intros N.
      rewrite (parse_config_files_raise pre k v post TypeError F).
      * reflexivity.
      * destruct v; try discriminate N; reflexivity.
    + intros s m -> R.
      rewrite (parse_config_files_raise pre k (PStr s) post
                 (JSONDecodeError m) F R).
      reflexivity.
Qed.

(** X18. The JSON rewrite cannot be applied to its own result.  When the
    rewritten text has the JSON shape again and decodes back to the object
    it was written from, and the first value of [config_files] has become
    something other than a string, rewriting the rewritten argument raises
    [TypeError]. *)
Theorem json_rewrite_not_repeatable arg d items parsed k w rest :
  JsonArgs.json_shaped arg = true ->
  json_loads arg = Ok (PDict d) ->
  Dict.get "config_files" d = Some (PDict items) ->
  NoDup (Dict.keys items) ->
  Forall2 (fun kv kw =>
             fst kw = fst kv
             /\ exists s, snd kv = PStr s /\ json_loads s = Ok (snd kw))
          items parsed ->
  parsed = (k, w) :: rest ->
  not_str w = true ->
  let d' := Dict.set "config_files" (PDict parsed) d in
  let out := json_dumps (PDict d') "," ":" in
  JsonArgs.json_shaped out = true ->
  json_loads out = Ok (PDict d') ->
  rewrite_arg arg = Ok out /\ rewrite_arg out = Raise TypeError.
Proof.
  intros S L G N F P W d' out S' L'. split.
  - unfold rewrite_arg, JsonArgs.rewrite_arg, JsonArgs.try_block.
    rewrite S, L. cbn [bind result_monad JsonArgs.contains_key].
    unfold Dict.mem. rewrite G. cbn [JsonArgs.get_items]. rewrite G.
    unfold JsonArgs.parse_config_files.
    rewrite (parse_config_files_ok json_loads items parsed F []); auto.
  - assert (G' : Dict.get "config_files" d' = Some (PDict parsed))
      by apply get_set_same.
    unfold rewrite_arg, JsonArgs.rewrite_arg, JsonArgs.try_block.
    rewrite S', L'. cbn [bind result_monad JsonArgs.contains_key].
    unfold Dict.mem. rewrite G'. cbn [JsonArgs.get_items]. rewrite G'.
    rewrite P. unfold JsonArgs.parse_config_files.
    cbn [foldM bind result_monad snd].
    destruct w; try discriminate W; reflexivity.
Qed.

(** X19. When the JSON normalizer returns, it returns as many arguments as
    it was given, and every argument that does not both start with an
    opening and end with a closing brace is at its place, unchanged.  On
    arguments none of which has that shape it cannot raise and returns the
    list as it is. *)
Theorem json_normalizer_keeps_positions a :
  (forall out,
     normalize a = Ok out ->
     List.length out = List.length (user_args a)
     /\ forall i x,
          nth_error (user_args a) i = Some x ->
          JsonArgs.json_shaped x = false ->
          nth_error out i = Some x)
  /\ ((forall x, In x (user_args a) -> JsonArgs.json_shaped x = false) ->
      normalize a = Ok (user_args a)).
Proof.
  assert (K : forall l out,
            Forall2 (fun x y => rewrite_arg x = Ok y) l out ->
            List.length out = List.length l
            /\ forall i x,
                 nth_error l i = Some x ->
                 JsonArgs.json_shaped x = false ->
                 nth_error out i = Some x).
  { induction 1 as [|x y l out R F [IL IN]]; [split; [reflexivity|]|].
    - intros [|i] x E; discriminate E.
    - split; [simpl; congruence|].
      intros [|i] x' E S; simpl in E |- *.
      + injection E as <-.
        unfold rewrite_arg, JsonArgs.rewrite_arg in R. rewrite S in R.
        congruence.
      + now apply IN. }
  split.
  - intros out H. apply K.
    unfold normalize, JsonArgs.parse_user_args in H.
    apply (loop_ok json_loads json_dumps msg) in H.
    destruct H as (ys & -> & F). exact F.
  - intros U. unfold normalize, JsonArgs.parse_user_args.
    apply (loop_ok json_loads json_dumps msg).
    exists (user_args a). split; [reflexivity|].
    induction (user_args a) as [|x l IH]; constructor.
    + unfold JsonArgs.rewrite_arg. rewrite (U x); [reflexivity|now left].
    + apply IH. intros y I. apply U. now right.
Qed.

End RewriteErrors.

(** ** The availability probes *)

Section ProbeFacts.
Variable decode_utf8 : string -> result string.

Let probe := Probes.MVAPICHRunner_backend_exists decode_utf8.

(** X20. The MVAPICH probe answers [True] only after it has found
    [mpiname], run it, and read [MVAPICH2-GDR] in what it printed, and then
    without a warning; it answers [False] with exactly one warning; without
    [mpiname] on the path it runs nothing; and an exception of the
    subprocess or of the decoding is not caught. *)
Theorem mvapich_probe h :
  (Probes.found h "mpiname" = false ->
   probe h
   = (Ok false,
      [Warned "mpiname does not exist, mvapich is not installed properly"]))
  /\ (fst (probe h) = Ok true ->
      exists bytes text,
        Probes.found h "mpiname" = true
        /\ check_output h "mpiname" = Ok bytes
        /\ decode_utf8 bytes = Ok text
        /\ Py.contains "MVAPICH2-GDR" (Py.strip text) = true
        /\ snd (probe h) = [Ran "mpiname"])
  /\ (fst (probe h) = Ok false -> warnings (snd (probe h)) = 1%nat)
  /\ (forall e,
        fst (probe h) = Raise e ->
        snd (probe h) = [Ran "mpiname"]
        /\ (check_output h "mpiname" = Raise e
            \/ exists bytes, check_output h "mpiname" = Ok bytes
                             /\ decode_utf8 bytes = Raise e)).
Proof.
  unfold probe, Probes.MVAPICHRunner_backend_exists.
  destruct (Probes.found h "mpiname"); cbn [negb].
  - destruct (check_output h "mpiname") as [bytes|e0] eqn:C.
    + destruct (decode_utf8 bytes) as [text|e1] eqn:D.
      * cbv zeta.
        destruct (Py.contains "MVAPICH2-GDR" (Py.strip text)) eqn:T;
          cbn [fst snd].
        -- split; [discriminate|]. split; [|split; [discriminate|]].
           ++ intros _. exists bytes, text. auto.
           ++ intros e E. discriminate E.
        -- split; [discriminate|]. split; [discriminate|].
           split; [reflexivity|]. intros e E. discriminate E.
      * cbn [fst snd]. split; [discriminate|]. split; [discriminate|].
        split; [discriminate|]. intros e E. injection E as <-.
        split; [reflexivity|]. right. exists bytes. auto.
    + cbn [fst snd]. split; [discriminate|]. split; [discriminate|].
      split; [discriminate|]. intros e E. injection E as <-. auto.
  - cbn [fst snd]. split; [reflexivity|]. split; [discriminate|].
    split; [reflexivity|]. intros e E. discriminate E.
Qed.

End ProbeFacts.

(** ** The further properties on the example launch *)

Module MoreChecks.
Import Example MoreExamples.

Lemma mvapich_hostfile_witness :
  supported MVAPICH cfg = true
  /\ pool_equal <> []
  /\ Dict.get MVAPICH_TMP_HOSTFILE
       (files (snd (get_cmd MVAPICH proc
                      (MVAPICHRunner.init cfg "WI" pool_equal) active store)))
     = Some ("h1" ++ Py.LF ++ "h2" ++ Py.LF).
Proof.
  assert (S : supported MVAPICH cfg = true) by reflexivity.
  assert (N : pool_equal <> []) by discriminate.
  split; [exact S|]. split; [exact N|].
  refine (proj1 (proj2 (mvapich_hostfile_lists_the_pool PDSH_MAX_FAN_OUT
                          MVAPICH_TMP_HOSTFILE proc
                          (MVAPICHRunner.init cfg "WI" pool_equal)
                          active store S N _))).
  intros h n h' n' [E|[E|[]]] [E'|[E'|[]]];
    injection E as _ <-; injection E' as _ <-; reflexivity.
Defined.

Lemma empty_pool_witness :
  supported MVAPICH cfg = true
  /\ get_cmd MVAPICH proc (MVAPICHRunner.init cfg "WI" []) active store
     = (Raise IndexError, store).
Proof.
  assert (S : supported MVAPICH cfg = true) by reflexivity.
  split; [exact S|].
  exact (proj1 (empty_pool_behaviour PDSH_MAX_FAN_OUT MVAPICH_TMP_HOSTFILE
                  proc (MVAPICHRunner.init cfg "WI" []) active store
                  S eq_refl)).
Defined.

Lemma mvapich_np_witness :
  supported MVAPICH cfg = true
  /\ pool_equal <> []
  /\ exists rest,
       fst (get_cmd MVAPICH proc (MVAPICHRunner.init cfg "WI" pool_equal)
              active store)
       = Ok ("mpirun" :: "-np" :: Py.str_int (4 * 2) :: "-ppn" :: "4"
             :: "--hostfile" :: MVAPICH_TMP_HOSTFILE :: rest).
Proof.
  assert (S : supported MVAPICH cfg = true) by reflexivity.
  assert (N : pool_equal <> []) by discriminate.
  split; [exact S|]. split; [exact N|].
  apply (mvapich_np_is_ppn_times_hosts PDSH_MAX_FAN_OUT MVAPICH_TMP_HOSTFILE
           proc (MVAPICHRunner.init cfg "WI" pool_equal) active store 4 S N).
  intros h n [E|[E|[]]]; injection E as _ <-; reflexivity.
Defined.

Lemma pool_order_witness :
  Permutation pool_equal pool_reversed
  /\ get_cmd Slurm proc
       (MultiNodeRunner.with_resource_pool pool_equal (slurm_runner "WI"))
       active store
     = get_cmd Slurm proc
         (MultiNodeRunner.with_resource_pool pool_reversed
            (slurm_runner "WI"))
         active store.
Proof.
  assert (Q : Permutation pool_equal pool_reversed) by apply perm_swap.
  split; [exact Q|].
  apply (pool_order_is_irrelevant PDSH_MAX_FAN_OUT MVAPICH_TMP_HOSTFILE
           Slurm proc (slurm_runner "WI") active store pool_equal
           pool_reversed (or_intror eq_refl) Q).
Defined.

Lemma capability_errors_witness :
  (include cfg_include <> "" \/ exclude cfg_include <> "")
  /\ get_cmd MVAPICH proc (MVAPICHRunner.init cfg_include "WI" pool_equal)
       active store
     = (Raise (AssertionError
                 "mvapich backend does not support worker include/exclusion"),
        store).
Proof.
  assert (I : include cfg_include <> "" \/ exclude cfg_include <> "")
    by (left; simpl; discriminate).
  split; [exact I|].
  exact (proj1 (capability_errors_in_order PDSH_MAX_FAN_OUT
                  MVAPICH_TMP_HOSTFILE MVAPICH "mvapich" proc
                  (MVAPICHRunner.init cfg_include "WI" pool_equal)
                  active store (or_intror (conj eq_refl eq_refl))) I).
Defined.

Lemma mpi_builders_ignore_witness :
  get_cmd Slurm proc (slurm_runner "WI") active store
  = get_cmd Slurm proc (slurm_runner "other world") active_few store.
Proof.
  apply (mpi_builders_ignore_world_info PDSH_MAX_FAN_OUT MVAPICH_TMP_HOSTFILE
           Slurm proc (slurm_runner "WI") (slurm_runner "other world")
           active active_few store);
    [right; left; reflexivity|reflexivity..].
Defined.

Lemma pdsh_host_names_witness :
  Dict.keys active = Dict.keys active_few
  /\ get_cmd PDSH proc (PDSHRunner.init cfg "WI") active store
     = get_cmd PDSH proc
         (MultiNodeRunner.with_resource_pool pool_equal
            (PDSHRunner.init cfg_include "WI"))
         active_few store.
Proof.
  assert (K : Dict.keys active = Dict.keys active_few) by reflexivity.
  split; [exact K|].
  apply (pdsh_reads_host_names_only PDSH_MAX_FAN_OUT MVAPICH_TMP_HOSTFILE
           proc (PDSHRunner.init cfg "WI")
           (MultiNodeRunner.with_resource_pool pool_equal
              (PDSHRunner.init cfg_include "WI"))
           active active_few store K); reflexivity.
Defined.

Lemma export_table_witness :
  new MVAPICH cfg "WI" pool_equal = Ok (MVAPICHRunner.init cfg "WI" pool_equal)
  /\ NoDup (Dict.keys
              (exports
                 (add_exports [(" MV2_USE_CUDA", "0 "); ("NCCL_DEBUG", "INFO")]
                    (MVAPICHRunner.init cfg "WI" pool_equal)))).
Proof.
  assert (N : new MVAPICH cfg "WI" pool_equal
              = Ok (MVAPICHRunner.init cfg "WI" pool_equal)) by reflexivity.
  split; [exact N|].
  exact (proj1 (export_table_invariant RefJson.json_loads RefJson.json_dumps
                  MVAPICH cfg "WI" pool_equal _
                  [(" MV2_USE_CUDA", "0 "); ("NCCL_DEBUG", "INFO")] N)).
Defined.

Lemma pdsh_normalized_witness :
  In "'bar baz'" (PDSHRunner.parse_user_args cfg)
  /\ exists x,
       In x (user_args cfg)
       /\ ((Py.startswith "-" x = true /\ "'bar baz'" = x)
           \/ (Py.startswith "-" x = false
               /\ "'bar baz'" = "'" ++ x ++ "'"
               /\ Py.startswith "'" "'bar baz'" = true
               /\ Py.endswith "'" "'bar baz'" = true
               /\ String.length "'bar baz'" = (String.length x + 2)%nat
               /\ inner "'bar baz'" = x)).
Proof.
  assert (I : In "'bar baz'" (PDSHRunner.parse_user_args cfg))
    by (simpl; auto).
  split; [exact I|].
  exact (pdsh_normalized_arguments cfg "'bar baz'" I).
Defined.

Lemma json_rewrite_type_error_witness :
  JsonArgs.json_shaped config_arg_number = true
  /\ RefJson.json_loads config_arg_number
     = Ok (PDict [("config_files", PDict [("a", PInt 5)])])
  /\ JsonArgs.rewrite_arg RefJson.json_loads RefJson.json_dumps
       SlurmRunner.message config_arg_number
     = Raise TypeError.
Proof.
  assert (S : JsonArgs.json_shaped config_arg_number = true) by reflexivity.
  assert (L : RefJson.json_loads config_arg_number
              = Ok (PDict [("config_files", PDict [("a", PInt 5)])]))
    by reflexivity.
  split; [exact S|]. split; [exact L|].
  refine (proj1 (proj2 (json_rewrite_other_errors RefJson.json_loads
                          RefJson.json_dumps SlurmRunner.message
                          config_arg_number _ S L)
                   [] "a" (PInt 5) [] eq_refl _) eq_refl).
  constructor.
Defined.

Lemma json_rewrite_not_repeatable_witness :
  JsonArgs.rewrite_arg RefJson.json_loads RefJson.json_dumps
    SlurmRunner.message config_arg
  = Ok config_arg_compact
  /\ JsonArgs.json_shaped config_arg_compact = true
  /\ RefJson.json_loads config_arg_compact
     = Ok (PDict [("config_files", PDict [("a", PDict [("x", PBool true)])])])
  /\ JsonArgs.rewrite_arg RefJson.json_loads RefJson.json_dumps
       SlurmRunner.message config_arg_compact
     = Raise TypeError.
Proof.
  assert (S' : JsonArgs.json_shaped config_arg_compact = true)
    by reflexivity.
  assert (L' : RefJson.json_loads config_arg_compact
               = Ok (PDict [("config_files",
                             PDict [("a", PDict [("x", PBool true)])])]))
    by reflexivity.
  assert (F : Forall2
                (fun kv kw : string * pyval =>
                   fst kw = fst kv
                   /\ exists s, snd kv = PStr s
                                /\ RefJson.json_loads s = Ok (snd kw))
                [("a", PStr (Py.dq "{`x`: true}"))]
                [("a", PDict [("x", PBool true)])]).
  { constructor; [|constructor]. split; [reflexivity|].
    eexists. split; reflexivity. }
  assert (N : NoDup (Dict.keys [("a", PStr (Py.dq "{`x`: true}"))])).
  { repeat constructor. intros []. }
  destruct (json_rewrite_not_repeatable RefJson.json_loads RefJson.json_dumps
              SlurmRunner.message config_arg
              [("config_files", PDict [("a", PStr (Py.dq "{`x`: true}"))])]
              [("a", PStr (Py.dq "{`x`: true}"))]
              [("a", PDict [("x", PBool true)])]
              "a" (PDict [("x", PBool true)]) []
              eq_refl eq_refl eq_refl N F eq_refl eq_refl S' L')
    as [A B].
  split; [exact A|]. split; [exact S'|]. split; [exact L'|exact B].
Defined.

(** The probe on the two hosts. *)
Example mvapich_probe_other_mpi :
  Probes.MVAPICHRunner_backend_exists decode_ascii host_other
  = (Ok false,
     [Ran "mpiname";
      Warned "Expected MVAPICH2-GDR as return for mpiname but received MVAPICH2 2.3"]).
Proof. reflexivity. Qed.

Example mvapich_probe_gdr :
  Probes.MVAPICHRunner_backend_exists decode_ascii host_gdr
  = (Ok true, [Ran "mpiname"]).
Proof. reflexivity. Qed.

End MoreChecks.
